(** * Design Standards Checker: configuration model and evaluation engine

    A shallow embedding of the plugin's [DesignStandardsChecker] class
    (configuration load / save / export / update / deep-merge, the six
    category checkers, the traversal and the issue aggregation) together
    with the configuration handlers of the UI script, followed by the
    properties of the specification that concern them.

    Conventions of the embedding.
    - JavaScript numbers are exact rationals ([Q]); [NaN], the only
      non-finite value the engine can produce from finite inputs (through
      [%] by zero), is [None] in [option Q].
    - JavaScript strings are [string]; case mapping and white space are
      those of ASCII.
    - A JavaScript object is an insertion-ordered association list.
      Members inherited from [Object.prototype] are not part of the model.
    - A piece of JSON text is seen through what [JSON.parse] makes of it
      ([Text]).
    - The host's regular-expression engine, number printing and style
      lookup are parameters of the sections that need them. *)

From Stdlib Require Import Ascii String QArith Qround Lqa DecimalString HexadecimalString.
From stdpp Require Import gmap strings list.

Local Open Scope string_scope.
Local Open Scope list_scope.
Local Open Scope Z_scope.
Local Open Scope Q_scope.
Local Open Scope nat_scope.

(* ===================================================================== *)
(** ** JavaScript values *)
(* ===================================================================== *)

(** A regular expression object, as far as the configuration code looks
    at it: [RegExp.prototype.source] and [RegExp.prototype.flags]. *)
Record RegExp := mkRegExp { source : string; flags : string }.

(** The values a configuration is built from. *)
#[warnings="-register-all"]
Inductive value :=
| VNull
| VBool (b : bool)
| VNum (q : Q)
| VStr (s : string)
| VArr (items : list value)
| VObj (fields : list (string * value))
| VRegExp (r : RegExp).

(** [RegExp.prototype.toString]: the literal form [/source/flags]. *)
Definition RegExp_toString (r : RegExp) : string :=
  "/" +:+ source r +:+ "/" +:+ flags r.

(** Truthiness of a value ([if (v)], [v && ...]). *)
Definition truthy (v : value) : bool :=
  match v with
  | VNull => false
  | VBool b => b
  | VNum q => negb (Qeq_bool q 0)
  | VStr s => negb (String.eqb s "")
  | VArr _ | VObj _ | VRegExp _ => true
  end.

(** *** Objects as ordered association lists *)

Fixpoint obj_get (fields : list (string * value)) (key : string) : option value :=
  match fields with
  | [] => None
  | (k, v) :: rest => if String.eqb k key then Some v else obj_get rest key
  end.

(** [o[key] = v] and [Object.assign(o, { [key]: v })]: an existing key
    keeps its place, a new key goes last. *)
Fixpoint obj_set (fields : list (string * value)) (key : string) (v : value)
  : list (string * value) :=
  match fields with
  | [] => [(key, v)]
  | (k, w) :: rest =>
      if String.eqb k key then (k, v) :: rest else (k, w) :: obj_set rest key v
  end.

(** Outcome of reading a property: the read throws a [TypeError] on
    [null]; a missing property reads as [undefined]. *)
Inductive read :=
| Throws
| Undefined
| Got (v : value).

(** [v.key] for the property names the configuration code uses (none of
    them is a member of a string, an array or a pattern object). *)
Definition get_prop (v : value) (key : string) : read :=
  match v with
  | VNull => Throws
  | VObj fields =>
      match obj_get fields key with
      | Some w => Got w
      | None => Undefined
      end
  | _ => Undefined
  end.

(** [key in v] for a [v] that passed [isObject]. *)
Definition has_key (v : value) (key : string) : bool :=
  match v with
  | VObj fields => bool_decide (is_Some (obj_get fields key))
  | _ => false
  end.

(** Decimal rendering of an array index, as a property name. *)
Definition index_key (i : nat) : string :=
  DecimalString.NilZero.string_of_uint (Nat.to_uint i).

Fixpoint spread_items (items : list value) (i : nat) : list (string * value) :=
  match items with
  | [] => []
  | v :: rest => (index_key i, v) :: spread_items rest (S i)
  end.

Fixpoint spread_chars (s : string) (i : nat) : list (string * value) :=
  match s with
  | EmptyString => []
  | String c rest => (index_key i, VStr (String c EmptyString)) :: spread_chars rest (S i)
  end.

(** [{ ...v }]: the own enumerable properties of [v]. A pattern object
    has none (its [lastIndex] is not enumerable), nor has a number, a
    boolean or [null]. *)
Definition spread (v : value) : list (string * value) :=
  match v with
  | VObj fields => fields
  | VArr items => spread_items items 0
  | VStr s => spread_chars s 0
  | VNull | VBool _ | VNum _ | VRegExp _ => []
  end.

(** [isObject] of [deepMerge]:
    [item && typeof item === 'object' && !Array.isArray(item)]. Only
    arrays are excluded: a pattern object has type ['object'] too. *)
Definition isObject (item : value) : bool :=
  match item with
  | VObj _ | VRegExp _ => true
  | VNull | VBool _ | VNum _ | VStr _ | VArr _ => false
  end.

(** [target[key]] in [deepMerge], read after [key in target] held. *)
Definition member (target : value) (key : string) : value :=
  match target with
  | VObj fields => default VNull (obj_get fields key)
  | _ => VNull
  end.

(** [deepMerge(target, source)]. The loop runs over [Object.keys(source)]
    in order (a pattern object has no keys), reads from [target] and
    writes to [output]. *)
Fixpoint deepMerge (target source : value) {struct source} : value :=
  let output := spread target in
  if isObject target && isObject source then
    match source with
    | VObj keys =>
        VObj ((fix forEach (keys : list (string * value))
                 (output : list (string * value)) : list (string * value) :=
                 match keys with
                 | [] => output
                 | (key, source_key) :: keys' =>
                     forEach keys'
                       (if isObject source_key then
                          if negb (has_key target key)
                          then obj_set output key source_key
                          else obj_set output key
                                 (deepMerge (member target key) source_key)
                        else obj_set output key source_key)
                 end) keys output)
    | _ => VObj output
    end
  else VObj output.

(* ===================================================================== *)
(** ** JSON text and pattern literals *)
(* ===================================================================== *)

(** A piece of text, as [if (text)] and [JSON.parse(text)] see it. *)
Inductive Text :=
| EmptyText                (* the empty string *)
| BadJSON                  (* text on which [JSON.parse] throws *)
| JSONText (doc : value).  (* text that [JSON.parse] turns into [doc] *)

(** What [JSON.stringify] writes for a value: a pattern object has no
    enumerable property and no [toJSON], so it is written as [{}]. *)
Fixpoint json_of (v : value) : value :=
  match v with
  | VArr items => VArr (map json_of items)
  | VObj fields => VObj (map (fun kv => (kv.1, json_of kv.2)) fields)
  | VRegExp _ => VObj []
  | VNull | VBool _ | VNum _ | VStr _ => v
  end.

Definition JSON_stringify (v : value) : Text := JSONText (json_of v).

(** [JSON.parse]; [None] stands for the [SyntaxError]. *)
Definition JSON_parse (text : Text) : option value :=
  match text with
  | EmptyText | BadJSON => None
  | JSONText doc => Some doc
  end.

Definition is_flag (c : ascii) : bool :=
  match c with
  | "g" | "i" | "m" | "u" | "y" => true
  | _ => false
  end%char.

(** The characters the dot of a pattern does not match. *)
Definition is_line_terminator (c : ascii) : bool :=
  match c with
  | "010" | "013" => true
  | _ => false
  end%char.

Fixpoint all_chars (p : ascii -> bool) (s : string) : bool :=
  match s with
  | EmptyString => true
  | String c rest => p c && all_chars p rest
  end.

(** Splits a reversed string into its leading run of flag characters
    and what follows. *)
Fixpoint span_flags (s : string) : string * string :=
  match s with
  | String c rest =>
      if is_flag c then let '(fl, tl) := span_flags rest in (String c fl, tl)
      else (EmptyString, s)
  | EmptyString => (EmptyString, EmptyString)
  end.

(** [patternStr.match(re)] for the pattern [re] of
    [loadConfigFromDocument]: start of input, a slash, a greedy group of
    any characters but line terminators, a slash, a group of characters
    among [gimuy], end of input. The result holds the two groups
    [(pattern, flags)] on a match. The second slash is the last slash of
    the string, only flag characters follow it, and no line terminator
    stands between the two slashes. *)
Definition match_pattern_literal (patternStr : string) : option (string * string) :=
  match patternStr with
  | String "/"%char rest =>
      let '(flags_rev, before) := span_flags (String.rev rest) in
      match before with
      | String "/"%char pattern_rev =>
          if all_chars (fun c => negb (is_line_terminator c)) pattern_rev
          then Some (String.rev pattern_rev, String.rev flags_rev)
          else None
      | _ => None
      end
  | _ => None
  end.

(* ===================================================================== *)
(** ** Configuration management *)
(* ===================================================================== *)

(** [r.key] after a read [r]: reading a property of [undefined] throws. *)
Definition dot (r : read) (key : string) : read :=
  match r with
  | Got v => get_prop v key
  | Throws | Undefined => Throws
  end.

(** The guard [c.naming && c.naming.patterns]; [None] when it throws. *)
Definition has_naming_patterns (c : value) : option bool :=
  match get_prop c "naming" with
  | Throws => None
  | Undefined => Some false
  | Got naming =>
      if truthy naming then
        match get_prop naming "patterns" with
        | Throws => None
        | Undefined => Some false
        | Got patterns => Some (truthy patterns)
        end
      else Some false
  end.

(** [c.naming.patterns[key] = v], for a [c] whose [naming.patterns] is an
    object. *)
Definition set_pattern (c : value) (key : string) (v : value) : value :=
  match c with
  | VObj fields =>
      match obj_get fields "naming" with
      | Some (VObj naming) =>
          match obj_get naming "patterns" with
          | Some (VObj patterns) =>
              VObj (obj_set fields "naming"
                      (VObj (obj_set naming "patterns"
                               (VObj (obj_set patterns key v)))))
          | _ => c
          end
      | _ => c
      end
  | _ => c
  end.

(** One of the three statements
    [if (this.config.naming.patterns.K instanceof RegExp)
       copy.naming.patterns.K = this.config.naming.patterns.K.toString()];
    [None] when the read throws. *)
Definition pattern_to_string (config : value) (key : string) (copy : value)
  : option value :=
  match dot (dot (get_prop config "naming") "patterns") key with
  | Throws => None
  | Got (VRegExp r) => Some (set_pattern copy key (VStr (RegExp_toString r)))
  | Got _ | Undefined => Some copy
  end.

(** The body shared by [saveConfigToDocument] and [exportCurrentConfig]:
    clone through JSON, then write the three patterns as strings. [None]
    when an exception leaves the [try] block. *)
Definition patterns_as_strings (config : value) : option value :=
  copy ← JSON_parse (JSON_stringify config);
  guard ← has_naming_patterns copy;
  if guard : bool then
    copy ← pattern_to_string config "frames" copy;
    copy ← pattern_to_string config "components" copy;
    pattern_to_string config "layers" copy
  else Some copy.

(* ===================================================================== *)
(** ** The typed configuration ([StandardsConfig]) *)
(* ===================================================================== *)

Record ColorsConfig := {
  allowedColors : list string;
  tolerance : Q
}.

Record TypographyConfig := {
  allowedFonts : list string;
  textStyles : list string
}.

Record SpacingConfig := {
  baseUnit : Q;
  tolerancePercent : Q
}.

Record ComponentsConfig := {
  requiredComponents : list (string * list string);
  mustBeInstances : list string
}.

Module Patterns.
Record t := {
  frames : RegExp;
  components : RegExp;
  layers : RegExp
}.
End Patterns.

Record NamingConfig := {
  patterns : Patterns.t
}.

Record AccessibilityConfig := {
  minContrastRatio : Q;
  interactiveElementMinSize : Q
}.

Record StandardsConfig := {
  colors : ColorsConfig;
  typography : TypographyConfig;
  spacing : SpacingConfig;
  components : ComponentsConfig;
  naming : NamingConfig;
  accessibility : AccessibilityConfig
}.

(** [this.defaultConfig] of the constructor. *)
Definition defaultConfig : StandardsConfig := {|
  colors := {|
    allowedColors :=
      ["#1A73E8"; "#4285F4"; "#34A853"; "#FBBC04"; "#EA4335"; "#F8F9FA"; "#202124"];
    tolerance := 0
  |};
  typography := {|
    allowedFonts := ["Roboto"; "Product Sans"; "Google Sans"];
    textStyles := ["Heading"; "Body"; "Caption"; "Button"]
  |};
  spacing := {|
    baseUnit := 8;
    tolerancePercent := 5
  |};
  components := {|
    requiredComponents :=
      [("screen", ["Navigation"; "StatusBar"]);
       ("card", ["Shadow"; "Title"])];
    mustBeInstances := ["Button"; "Input"; "Checkbox"; "Radio"; "Toggle"; "Dropdown"]
  |};
  naming := {|
    patterns := {|
      Patterns.frames := mkRegExp "^[A-Z][a-z]+ - [a-z0-9-_]+$" "";
      Patterns.components := mkRegExp "^[A-Z][a-z]+ \/ [A-Z][a-z]+$" "";
      Patterns.layers := mkRegExp "^[a-z][a-z0-9-_]+$" ""
    |}
  |};
  accessibility := {|
    minContrastRatio := 9 # 2;
    interactiveElementMinSize := 44
  |}
|}.

(** The JavaScript object a typed configuration stands for. *)
Definition strings_value (l : list string) : value := VArr (map VStr l).

Definition StandardsConfig_value (c : StandardsConfig) : value :=
  VObj [
    ("colors", VObj [
       ("allowedColors", strings_value (allowedColors (colors c)));
       ("tolerance", VNum (tolerance (colors c)))]);
    ("typography", VObj [
       ("allowedFonts", strings_value (allowedFonts (typography c)));
       ("textStyles", strings_value (textStyles (typography c)))]);
    ("spacing", VObj [
       ("baseUnit", VNum (baseUnit (spacing c)));
       ("tolerancePercent", VNum (tolerancePercent (spacing c)))]);
    ("components", VObj [
       ("requiredComponents",
         VObj (map (fun kv => (kv.1, strings_value kv.2))
                 (requiredComponents (components c))));
       ("mustBeInstances", strings_value (mustBeInstances (components c)))]);
    ("naming", VObj [
       ("patterns", VObj [
          ("frames", VRegExp (Patterns.frames (patterns (naming c))));
          ("components", VRegExp (Patterns.components (patterns (naming c))));
          ("layers", VRegExp (Patterns.layers (patterns (naming c))))])]);
    ("accessibility", VObj [
       ("minContrastRatio", VNum (minContrastRatio (accessibility c)));
       ("interactiveElementMinSize",
         VNum (interactiveElementMinSize (accessibility c)))])
  ].

(* ===================================================================== *)
(** ** The checker's configuration state and its operations *)
(* ===================================================================== *)

(** The fields of [DesignStandardsChecker] that configuration management
    touches, with the document's plugin data for the key
    ['designStandardsConfig']. *)
Record Checker := {
  config : value;
  pluginData : Text
}.

Section ConfigurationManagement.

(** [new RegExp(pattern, flags)] of the host; [None] stands for the
    [SyntaxError] of a pattern or flags that do not compile. *)
Variable RegExp_new : string -> string -> option RegExp.

(** One of the three blocks of [loadConfigFromDocument] that turn the
    string at [parsedConfig.naming.patterns.K] back into a pattern
    object; [None] when [new RegExp] throws. A string that does not
    match the literal shape is left in place. *)
Definition revive_pattern (key : string) (parsedConfig : value) : option value :=
  match dot (dot (get_prop parsedConfig "naming") "patterns") key with
  | Throws => None
  | Got (VStr patternStr) =>
      match match_pattern_literal patternStr with
      | Some (pattern, flags) =>
          r ← RegExp_new pattern flags;
          Some (set_pattern parsedConfig key (VRegExp r))
      | None => Some parsedConfig
      end
  | Got _ | Undefined => Some parsedConfig
  end.

(** [loadConfigFromDocument]; [None] is the [null] result, returned
    for empty plugin data and from the [catch] block. *)
Definition loadConfigFromDocument (pluginDataStr : Text) : option value :=
  match pluginDataStr with
  | EmptyText => None
  | _ =>
      parsedConfig ← JSON_parse pluginDataStr;
      guard ← has_naming_patterns parsedConfig;
      if guard : bool then
        parsedConfig ← revive_pattern "frames" parsedConfig;
        parsedConfig ← revive_pattern "components" parsedConfig;
        revive_pattern "layers" parsedConfig
      else Some parsedConfig
  end.

(** The constructor's
    [this.loadConfigFromDocument() || {...this.defaultConfig}]. *)
Definition constructor (pluginDataStr : Text) : Checker :=
  {| config :=
       match loadConfigFromDocument pluginDataStr with
       | Some loaded =>
           if truthy loaded then loaded
           else VObj (spread (StandardsConfig_value defaultConfig))
       | None => VObj (spread (StandardsConfig_value defaultConfig))
       end;
     pluginData := pluginDataStr |}.

(** [saveConfigToDocument]: on an exception the plugin data is left as
    it was. *)
Definition saveConfigToDocument (this : Checker) : Checker :=
  match patterns_as_strings (config this) with
  | Some configToSave =>
      {| config := config this; pluginData := JSON_stringify configToSave |}
  | None => this
  end.

(** [exportCurrentConfig]: the exported text. *)
Definition exportCurrentConfig (this : Checker) : Text :=
  match patterns_as_strings (config this) with
  | Some configToExport => JSON_stringify configToExport
  | None => JSON_stringify (StandardsConfig_value defaultConfig)
  end.

(** [updateConfig(newConfig)]. *)
Definition updateConfig (this : Checker) (newConfig : value) : Checker :=
  saveConfigToDocument
    {| config := deepMerge (config this) newConfig;
       pluginData := pluginData this |}.

(** [resetToDefaultConfig]. *)
Definition resetToDefaultConfig (this : Checker) : Checker :=
  saveConfigToDocument
    {| config := VObj (spread (StandardsConfig_value defaultConfig));
       pluginData := pluginData this |}.

(** *** The configuration handlers of the UI script and of [PluginUI] *)

(** Messages of type ['update-config'], ['reset-config'] and
    ['export-config'] posted by the UI script. *)
Inductive ConfigMessage :=
| UpdateConfigMsg (config : value)
| ResetConfigMsg
| ExportConfigMsg.

(** The ['change'] handler of the pattern field for [key] (['frames'],
    ['components'] or ['layers']): the message it posts, or [None]
    when [new RegExp] throws and the handler only shows an alert. *)
Definition patternFieldChanged (key : string) (text : string) : option ConfigMessage :=
  match RegExp_new text "" with
  | Some pattern =>
      Some (UpdateConfigMsg
              (VObj [("naming", VObj [("patterns", VObj [(key, VRegExp pattern)])])]))
  | None => None
  end.

(** The ['click'] handler of the manual import button: the pasted text
    is parsed and posted as it is. *)
Definition manualImportClicked (configStr : Text) : option ConfigMessage :=
  match JSON_parse configStr with
  | Some parsed => Some (UpdateConfigMsg parsed)
  | None => None
  end.

(** [PluginUI.handleConfigMessages], as far as the checker's state goes. *)
Definition handleConfigMessages (this : Checker) (msg : ConfigMessage) : Checker :=
  match msg with
  | UpdateConfigMsg newConfig => updateConfig this newConfig
  | ResetConfigMsg => resetToDefaultConfig this
  | ExportConfigMsg => this
  end.

End ConfigurationManagement.

(* ===================================================================== *)
(** ** Strings and numbers of the checkers *)
(* ===================================================================== *)

Definition lower_char (c : ascii) : ascii :=
  let n := nat_of_ascii c in
  if (65 <=? n) && (n <=? 90) then ascii_of_nat (n + 32) else c.

Definition upper_char (c : ascii) : ascii :=
  let n := nat_of_ascii c in
  if (97 <=? n) && (n <=? 122) then ascii_of_nat (n - 32) else c.

Fixpoint map_chars (f : ascii -> ascii) (s : string) : string :=
  match s with
  | EmptyString => EmptyString
  | String c rest => String (f c) (map_chars f rest)
  end.

Definition toLowerCase : string -> string := map_chars lower_char.
Definition toUpperCase : string -> string := map_chars upper_char.

(** [s.includes(sub)]. *)
Fixpoint includes (s sub : string) : bool :=
  String.prefix sub s ||
  match s with
  | EmptyString => false
  | String _ rest => includes rest sub
  end.

(** The part of [s] after its last ['/'], when [s] has one:
    [parts[parts.length - 1]] of [s.split('/')] with [parts.length > 1]. *)
Fixpoint after_last_slash (s : string) : option string :=
  match s with
  | EmptyString => None
  | String c rest =>
      match after_last_slash rest with
      | Some part => Some part
      | None => if Ascii.eqb c "/" then Some rest else None
      end
  end.

Fixpoint trim_start (s : string) : string :=
  match s with
  | String c rest => if Ascii.is_space c then trim_start rest else s
  | EmptyString => EmptyString
  end.

(** [s.trim()]. *)
Definition trim (s : string) : string :=
  String.rev (trim_start (String.rev (trim_start s))).

(** [Math.round]: the nearest integer, halves going up. *)
Definition Math_round (q : Q) : Z := Qfloor (q + (1 # 2)).

(** [n.toString(16)] of an integer. *)
Definition toString16 (n : Z) : string :=
  HexadecimalString.NilZero.string_of_int (Z.to_hex_int n).

(** The truncation of a quotient toward zero. *)
Definition Qtrunc (q : Q) : Z := Z.quot (Qnum q) (Zpos (Qden q)).

(** [a % b]: the remainder has the sign of the dividend [a]; it is [NaN]
    ([None]) for a zero divisor. *)
Definition js_rem (a b : Q) : option Q :=
  if Qeq_bool b 0 then None
  else Some (a - b * inject_Z (Qtrunc (a / b)))%Q.

(** [a <= b] where [a] may be [NaN]: every comparison with [NaN] is
    false. *)
Definition le_num (a : option Q) (b : Q) : bool :=
  match a with
  | Some a => Qle_bool a b
  | None => false
  end.

(* ===================================================================== *)
(** ** Nodes *)
(* ===================================================================== *)

Inductive NodeType :=
| DOCUMENT | PAGE | FRAME | GROUP | COMPONENT | INSTANCE | TEXT
| OTHER.  (* any other scene node: rectangle, vector, ... *)

Global Instance NodeType_eq_dec : EqDecision NodeType.
Proof. solve_decision. Defined.

Inductive PaintType := SOLID | OTHER_PAINT.

Record RGB := { r : Q; g : Q; b : Q }.

Record Paint := {
  paint_type : PaintType;
  visible : bool;       (* truthiness of [paint.visible] *)
  color : RGB
}.

(** [node.fontName]: a font or the [figma.mixed] symbol. *)
Inductive FontName :=
| MixedFont
| Font (family style : string).

(** [node.textStyleId]: an identifier (empty when no style is assigned)
    or the [figma.mixed] symbol. *)
Inductive TextStyleId :=
| MixedStyle
| StyleId (id : string).

Inductive LayoutMode := NONE | HORIZONTAL | VERTICAL.

Record AutoLayout := {
  layoutMode : LayoutMode;
  paddingTop : Q;
  paddingRight : Q;
  paddingBottom : Q;
  paddingLeft : Q
}.

Record Geometry := { x : Q; y : Q; width : Q; height : Q }.

(** The read-only view of a document node. An optional field is [None]
    when the node has no such property; [fills] and [strokes] are also
    [None] when the property is not an array ([figma.mixed]). The four
    container types always carry a geometry. *)
#[warnings="-register-all"]
Inductive Node := mkNode {
  id : string;
  name : string;
  type : NodeType;
  geometry : option Geometry;
  fills : option (list Paint);
  strokes : option (list Paint);
  fontName : option FontName;
  textStyleId : TextStyleId;
  layout : option AutoLayout;
  children : option (list Node)
}.

(* ===================================================================== *)
(** ** Results *)
(* ===================================================================== *)

Record CheckIssue := {
  category : string;
  message : string;
  nodeId : string
}.

Record Stats := {
  nodesChecked : nat;
  issuesFound : nat;
  categoryCounts : gmap string nat
}.

Record CheckResults := {
  passed : bool;
  issues : list CheckIssue;
  stats : Stats
}.

(** A style lookup started by [checkTypography] with
    [figma.getStyleByIdAsync]: its callbacks run after the synchronous
    evaluation has returned. *)
Record StyleLookup := {
  lookup_style : TextStyleId;
  lookup_name : string;   (* [node.name] *)
  lookup_id : string      (* [node.id] *)
}.

(** How a style lookup settles. *)
Inductive StyleOutcome :=
| Rejected                 (* the promise is rejected *)
| NoStyle                  (* resolved with [null] *)
| Style (name : string).   (* resolved with a style of that name *)

(** The [results] object under construction, with the lookups that are
    still pending. *)
Record Run := {
  results : CheckResults;
  pending : list StyleLookup
}.

(** [addIssue(results, category, message, nodeId)]. *)
Definition addIssue (results : CheckResults) (category message nodeId : string)
  : CheckResults :=
  let counts := categoryCounts (stats results) in
  let counts :=
    match counts !! category with
    | None | Some 0 => <[category := 0]> counts
    | Some _ => counts
    end in
  {| passed := false;
     issues := issues results ++ [ {| category := category;
                                      message := message;
                                      nodeId := nodeId |} ];
     stats := {| nodesChecked := nodesChecked (stats results);
                 issuesFound := S (issuesFound (stats results));
                 categoryCounts :=
                   <[category := S (default 0 (counts !! category))]> counts |} |}.

(** [addIssue] on the results of a run. *)
Definition report (category message nodeId : string) (run : Run) : Run :=
  {| results := addIssue (results run) category message nodeId;
     pending := pending run |}.

(* ===================================================================== *)
(** ** The evaluation engine *)
(* ===================================================================== *)

(** The double quote character of the messages. *)
Definition dq : string := String (ascii_of_nat 34) EmptyString.

Section Engine.

(** [pattern.test(name)] of the host's regular-expression engine, for
    patterns without the [g] and [y] flags (whose tests do not depend
    on earlier ones). *)
Variable RegExp_test : RegExp -> string -> bool.

(** The rendering of a number inside a template string. *)
Variable Number_toString : Q -> string.

(** [this.config]. *)
Variable config : StandardsConfig.

(** *** Helper functions *)

Definition toHex (value : Q) : string :=
  let hex := toString16 (Math_round (value * 255)) in
  if String.length hex =? 1 then "0" +:+ hex else hex.

Definition rgbToHex (r g b : Q) : string :=
  toUpperCase ("#" +:+ toHex r +:+ toHex g +:+ toHex b).

Definition isColorAllowed (color : string) : bool :=
  bool_decide (color ∈ allowedColors (colors config)).

Definition isOnGrid (value : Q) : bool :=
  let gridUnit := baseUnit (spacing config) in
  let tolerance := ((gridUnit * tolerancePercent (spacing config)) / 100)%Q in
  let remainder := js_rem value gridUnit in
  le_num remainder tolerance ||
  le_num (option_map (fun remainder => gridUnit - remainder)%Q remainder) tolerance.

Definition getFrameType (name : string) : option string :=
  let lowerName := toLowerCase name in
  if includes lowerName "screen" then Some "screen"
  else if includes lowerName "card" then Some "card"
  else None.

Definition getComponentName (name : string) : string :=
  match after_last_slash name with
  | Some last => trim last
  | None => name
  end.

Fixpoint hasComponentNamed (node : Node) (componentName : string) : bool :=
  match children node with
  | None => false
  | Some node_children =>
      existsb
        (fun child =>
           includes (name child) componentName ||
           match children child with
           | Some _ => hasComponentNamed child componentName
           | None => false
           end)
        node_children
  end.

Definition getNodeColor (node : Node) : option string :=
  match fills node with
  | Some (fill :: _) =>
      match paint_type fill with
      | SOLID =>
          if visible fill
          then Some (rgbToHex (r (color fill)) (g (color fill)) (b (color fill)))
          else None
      | OTHER_PAINT => None
      end
  | _ => None
  end.

Definition hasAdequateContrast (_color1 _color2 : string) : bool := true.

Definition isInteractiveElement (node : Node) : bool :=
  let interactiveKeywords :=
    ["button"; "link"; "input"; "toggle"; "checkbox"; "radio"] in
  existsb (fun keyword => includes (toLowerCase (name node)) keyword)
    interactiveKeywords.

(** *** The six checkers *)

(** One loop of [checkColors], over [node.fills] or [node.strokes];
    [wording] is the start of the message. *)
Definition checkPaints (wording : string) (node : Node)
    (paints : option (list Paint)) (run : Run) : Run :=
  match paints with
  | Some paints =>
      fold_left
        (fun run paint =>
           match paint_type paint with
           | SOLID =>
               if visible paint then
                 let color :=
                   rgbToHex (r (color paint)) (g (color paint)) (b (color paint)) in
                 if negb (isColorAllowed color) then
                   report "color"
                     (wording +:+ color +:+ " used in " +:+ name node)
                     (id node) run
                 else run
               else run
           | OTHER_PAINT => run
           end)
        paints run
  | None => run
  end.

Definition checkColors (node : Node) (run : Run) : Run :=
  let run := checkPaints "Non-standard color " node (fills node) run in
  checkPaints "Non-standard stroke color " node (strokes node) run.

Definition checkTypography (node : Node) (run : Run) : Run :=
  match type node with
  | TEXT =>
      let run :=
        match fontName node with
        | Some (Font family _) =>
            if negb (bool_decide (family ∈ allowedFonts (typography config))) then
              report "typography"
                ("Non-standard font " +:+ dq +:+ family +:+ dq +:+
                 " used in " +:+ dq +:+ name node +:+ dq)
                (id node) run
            else run
        | Some MixedFont | None => run
        end in
      match textStyleId node with
      | StyleId "" =>
          report "typography"
            ("Text " +:+ dq +:+ name node +:+ dq +:+ " is not using any text style")
            (id node) run
      | styleId =>
          {| results := results run;
             pending := pending run ++
               [ {| lookup_style := styleId;
                    lookup_name := name node;
                    lookup_id := id node |} ] |}
      end
  | _ => run
  end.

(** One grid test of [checkSpacing] with its message. *)
Definition checkOnGrid (value : Q) (message : string) (node : Node) (run : Run)
  : Run :=
  if negb (isOnGrid value) then report "spacing" message (id node) run else run.

Definition checkSpacing (node : Node) (run : Run) : Run :=
  match type node with
  | FRAME | GROUP | COMPONENT | INSTANCE =>
      match geometry node with
      | Some {| x := x; y := y; width := width; height := height |} =>
          let run :=
            checkOnGrid x
              (name node +:+ " X position (" +:+ Number_toString x +:+
               ") is not on grid") node run in
          let run :=
            checkOnGrid y
              (name node +:+ " Y position (" +:+ Number_toString y +:+
               ") is not on grid") node run in
          let run :=
            checkOnGrid width
              (name node +:+ " width (" +:+ Number_toString width +:+
               ") is not on grid") node run in
          let run :=
            checkOnGrid height
              (name node +:+ " height (" +:+ Number_toString height +:+
               ") is not on grid") node run in
          match type node, layout node with
          | FRAME, Some frame =>
              match layoutMode frame with
              | NONE => run
              | _ =>
                  let run :=
                    checkOnGrid (paddingTop frame)
                      (name node +:+ " has non-standard top padding (" +:+
                       Number_toString (paddingTop frame) +:+ ")") node run in
                  let run :=
                    checkOnGrid (paddingRight frame)
                      (name node +:+ " has non-standard right padding (" +:+
                       Number_toString (paddingRight frame) +:+ ")") node run in
                  let run :=
                    checkOnGrid (paddingBottom frame)
                      (name node +:+ " has non-standard bottom padding (" +:+
                       Number_toString (paddingBottom frame) +:+ ")") node run in
                  checkOnGrid (paddingLeft frame)
                    (name node +:+ " has non-standard left padding (" +:+
                     Number_toString (paddingLeft frame) +:+ ")") node run
              end
          | _, _ => run
          end
      | None => run
      end
  | _ => run
  end.

(** [this.config.components.requiredComponents[frameType]]. *)
Definition requiredComponentsFor (frameType : string) : option (list string) :=
  snd <$> find (fun entry => String.eqb entry.1 frameType)
            (requiredComponents (components config)).

Definition checkComponents (node : Node) (run : Run) : Run :=
  let run :=
    match type node with
    | FRAME =>
        match getFrameType (name node) with
        | Some frameType =>
            match requiredComponentsFor frameType with
            | Some requiredComponents =>
                fold_left
                  (fun run requiredComponent =>
                     let hasComponent :=
                       match children node with
                       | Some _ => hasComponentNamed node requiredComponent
                       | None => false
                       end in
                     if negb hasComponent then
                       report "components"
                         (name node +:+ " is missing required component: " +:+
                          requiredComponent)
                         (id node) run
                     else run)
                  requiredComponents run
            | None => run
            end
        | None => run
        end
    | _ => run
    end in
  let componentName := getComponentName (name node) in
  if negb (String.eqb componentName "") &&
     bool_decide (componentName ∈ mustBeInstances (components config))
  then
    match type node with
    | INSTANCE | COMPONENT => run
    | _ =>
        report "components" (name node +:+ " should be a component instance")
          (id node) run
    end
  else run.

Definition checkNaming (node : Node) (run : Run) : Run :=
  let run :=
    match type node with
    | FRAME =>
        if negb (RegExp_test (Patterns.frames (patterns (naming config))) (name node))
        then
          report "naming"
            ("Frame " +:+ dq +:+ name node +:+ dq +:+
             " doesn't follow naming convention")
            (id node) run
        else run
    | _ => run
    end in
  let run :=
    match type node with
    | COMPONENT | INSTANCE =>
        if negb (RegExp_test (Patterns.components (patterns (naming config)))
                   (name node))
        then
          report "naming"
            ("Component " +:+ dq +:+ name node +:+ dq +:+
             " doesn't follow naming convention")
            (id node) run
        else run
    | _ => run
    end in
  match type node with
  | FRAME | COMPONENT | INSTANCE => run
  | _ =>
      if negb (RegExp_test (Patterns.layers (patterns (naming config))) (name node))
      then
        report "naming"
          ("Layer " +:+ dq +:+ name node +:+ dq +:+
           " doesn't follow naming convention")
          (id node) run
      else run
  end.

Definition checkAccessibility (node : Node) (run : Run) : Run :=
  let run :=
    match type node with
    | TEXT =>
        let textColor := getNodeColor node in
        let backgroundColor := "#FFFFFF" in
        match textColor with
        | Some textColor =>
            if negb (String.eqb textColor "") &&
               negb (hasAdequateContrast textColor backgroundColor)
            then
              report "accessibility"
                ("Text " +:+ dq +:+ name node +:+ dq +:+
                 " has insufficient contrast")
                (id node) run
            else run
        | None => run
        end
    | _ => run
    end in
  if isInteractiveElement node then
    match geometry node with
    | Some {| width := width; height := height |} =>
        let minSize := interactiveElementMinSize (accessibility config) in
        if negb (Qle_bool minSize width) || negb (Qle_bool minSize height) then
          report "accessibility"
            ("Interactive element " +:+ dq +:+ name node +:+ dq +:+ " (" +:+
             Number_toString width +:+ "x" +:+ Number_toString height +:+
             ") is too small for touch targets")
            (id node) run
        else run
    | None => run
    end
  else run.

(** *** Traversal *)

(** [results.stats.nodesChecked++]. *)
Definition countNode (run : Run) : Run :=
  {| results :=
       {| passed := passed (results run);
          issues := issues (results run);
          stats :=
            {| nodesChecked := S (nodesChecked (stats (results run)));
               issuesFound := issuesFound (stats (results run));
               categoryCounts := categoryCounts (stats (results run)) |} |};
     pending := pending run |}.

Fixpoint processNode (node : Node) (isDeepCheck : bool) (run : Run) : Run :=
  let run := countNode run in
  let run := checkColors node run in
  let run := checkTypography node run in
  let run := checkSpacing node run in
  let run := checkComponents node run in
  let run := checkNaming node run in
  let run := checkAccessibility node run in
  if isDeepCheck then
    match children node with
    | Some node_children =>
        fold_left (fun run child => processNode child isDeepCheck run)
          node_children run
    | None => run
    end
  else run.

Definition emptyResults : CheckResults :=
  {| passed := true;
     issues := [];
     stats := {| nodesChecked := 0; issuesFound := 0; categoryCounts := ∅ |} |}.

(** The synchronous run of [runAllChecks], with the style lookups it
    leaves pending. *)
Definition runAllChecks_run (node : Node) (isDeepCheck : bool) : Run :=
  processNode node isDeepCheck {| results := emptyResults; pending := [] |}.

(** [runAllChecks(node, isDeepCheck)]: the results as they are when the
    call returns. *)
Definition runAllChecks (node : Node) (isDeepCheck : bool) : CheckResults :=
  results (runAllChecks_run node isDeepCheck).

(** *** Settling the style lookups *)

(** The callbacks [then] and [catch] of a style lookup, run on the
    results object once the lookup has settled. *)
Definition settleLookup (lookup : StyleLookup) (outcome : StyleOutcome)
    (results : CheckResults) : CheckResults :=
  match outcome with
  | Style textStyle_name =>
      let isValidStyle :=
        existsb (fun pattern => includes textStyle_name pattern)
          (textStyles (typography config)) in
      if negb isValidStyle then
        addIssue results "typography"
          ("Text " +:+ dq +:+ lookup_name lookup +:+ dq +:+
           " uses non-standard text style " +:+ dq +:+ textStyle_name +:+ dq)
          (lookup_id lookup)
      else results
  | NoStyle => results
  | Rejected =>
      addIssue results "typography"
        ("Error checking text style for " +:+ dq +:+ lookup_name lookup +:+ dq)
        (lookup_id lookup)
  end.

End Engine.

(* ===================================================================== *)
(** ** Vocabulary of the properties *)
(* ===================================================================== *)

(** The callbacks of several settled lookups, run in the order given. *)
Definition settleAll (config : StandardsConfig)
    (settled : list (StyleLookup * StyleOutcome)) (results : CheckResults)
  : CheckResults :=
  fold_left (fun results s => settleLookup config s.1 s.2 results) settled results.

(** The six checkers in the order [processNode] runs them. *)
Definition checkNode (RegExp_test : RegExp -> string -> bool)
    (Number_toString : Q -> string) (config : StandardsConfig)
    (node : Node) (run : Run) : Run :=
  checkAccessibility Number_toString config node
    (checkNaming RegExp_test config node
       (checkComponents config node
          (checkSpacing Number_toString config node
             (checkTypography config node
                (checkColors config node run))))).

(** The number of nodes of the subtree rooted at [node]. *)
Fixpoint subtreeSize (node : Node) : nat :=
  S match children node with
    | Some node_children => sum_list (map subtreeSize node_children)
    | None => 0
    end.

(** The nodes a call of [runAllChecks] is to visit. *)
Definition visitCount (isDeepCheck : bool) (node : Node) : nat :=
  if isDeepCheck then subtreeSize node else 1.

(** The nodes of the subtree rooted at [node] in document order, a node
    before its children. *)
Fixpoint preorder (node : Node) : list Node :=
  node ::
  match children node with
  | Some node_children => flat_map preorder node_children
  | None => []
  end.

(** The nodes a call of [runAllChecks] is to visit, in order. *)
Definition visitedNodes (isDeepCheck : bool) (node : Node) : list Node :=
  if isDeepCheck then preorder node else [node].

(** The number of issues of a category. *)
Definition countCategory (c : string) (l : list CheckIssue) : nat :=
  length (filter (fun i => category i = c) l).

(** The relations the specification states between the fields of a
    results object. *)
Record consistent (results : CheckResults) : Prop := {
  consistent_passed :
    passed results = bool_decide (length (issues results) = 0);
  consistent_found :
    issuesFound (stats results) = length (issues results);
  consistent_counts : forall c,
    categoryCounts (stats results) !! c =
    if decide (countCategory c (issues results) = 0) then None
    else Some (countCategory c (issues results))
}.

(** Appending a list of issues, one [addIssue] after the other. *)
Definition addIssues (l : list CheckIssue) (results : CheckResults) : CheckResults :=
  fold_left (fun results i => addIssue results (category i) (message i) (nodeId i))
    l results.

(** [k] increments of [nodesChecked]. *)
Definition visited (k : nat) (results : CheckResults) : CheckResults :=
  {| passed := passed results;
     issues := issues results;
     stats := {| nodesChecked := k + nodesChecked (stats results);
                 issuesFound := issuesFound (stats results);
                 categoryCounts := categoryCounts (stats results) |} |}.

(** [res'] is [res] with further issues appended, all of which satisfy
    [P]. *)
Definition extends (P : CheckIssue -> Prop) (res res' : CheckResults) : Prop :=
  exists l, Forall P l /\ res' = addIssues l res.

(** An issue of the given category. *)
Definition of_category (c : string) (i : CheckIssue) : Prop := category i = c.

(** An issue of another category than typography. *)
Definition not_typography (i : CheckIssue) : Prop := category i <> "typography".

(** The two typography issues of a text node: for its font family and
    for its missing text style. *)
Definition fontIssue (family : string) (node : Node) : CheckIssue :=
  {| category := "typography";
     message := "Non-standard font " +:+ dq +:+ family +:+ dq +:+
                " used in " +:+ dq +:+ name node +:+ dq;
     nodeId := id node |}.

Definition missingStyleIssue (node : Node) : CheckIssue :=
  {| category := "typography";
     message := "Text " +:+ dq +:+ name node +:+ dq +:+ " is not using any text style";
     nodeId := id node |}.

(** The configuration with another [components.requiredComponents]. *)
Definition withRequiredComponents (config : StandardsConfig)
    (required : list (string * list string)) : StandardsConfig :=
  {| colors := colors config;
     typography := typography config;
     spacing := spacing config;
     components :=
       {| requiredComponents := required;
          mustBeInstances := mustBeInstances (components config) |};
     naming := naming config;
     accessibility := accessibility config |}.

(** The configuration with another [spacing]. *)
Definition withSpacing (config : StandardsConfig) (s : SpacingConfig)
  : StandardsConfig :=
  {| colors := colors config;
     typography := typography config;
     spacing := s;
     components := components config;
     naming := naming config;
     accessibility := accessibility config |}.

(** [c.naming.patterns[key]]. *)
Definition pattern_at (c : value) (key : string) : read :=
  dot (dot (get_prop c "naming") "patterns") key.

(** *** Concrete inputs *)

(** A checker freshly constructed on a document without plugin data. *)
Definition defaultChecker : Checker :=
  {| config := StandardsConfig_value defaultConfig; pluginData := EmptyText |}.

(** The default configuration with its three patterns replaced by their
    literal strings. *)
Definition defaultWithPatternStrings : value :=
  set_pattern
    (set_pattern
       (set_pattern (StandardsConfig_value defaultConfig)
          "frames" (VStr "/^[A-Z][a-z]+ - [a-z0-9-_]+$/"))
       "components" (VStr "/^[A-Z][a-z]+ \/ [A-Z][a-z]+$/"))
    "layers" (VStr "/^[a-z][a-z0-9-_]+$/").

(** The partial configuration the frame-pattern field builds:
    [{ naming: { patterns: { frames: r } } }]. *)
Definition framesPatternUpdate (r : RegExp) : value :=
  VObj [("naming", VObj [("patterns", VObj [("frames", VRegExp r)])])].

(** Pasted JSON whose frame pattern is the text of an unterminated
    group. *)
Definition badPatternImport : value :=
  VObj [("naming", VObj [("patterns", VObj [("frames", VStr "(")])])].

(** A stored document that holds the bare sources of the default
    patterns, without the slashes of the literal form. *)
Definition rawPatternsDocument : value :=
  set_pattern
    (set_pattern
       (set_pattern (json_of (StandardsConfig_value defaultConfig))
          "frames" (VStr "^[A-Z][a-z]+ - [a-z0-9-_]+$"))
       "components" (VStr "^[A-Z][a-z]+ \/ [A-Z][a-z]+$"))
    "layers" (VStr "^[a-z][a-z0-9-_]+$").

(** A stored document whose frame pattern has the literal form but does
    not compile. *)
Definition uncompilablePatternDocument : value :=
  VObj [("naming", VObj [("patterns", VObj [("frames", VStr "/(/")])])].

(** A 328 x 640 frame named "Screen - home" with one text child in Arial
    that has no text style. *)
Definition scenarioText : Node :=
  mkNode "1:3" "title" TEXT
    (Some {| x := 16; y := 16; width := 296; height := 24 |})
    (Some []) (Some []) (Some (Font "Arial" "Regular")) (StyleId "") None None.

Definition scenarioFrame : Node :=
  mkNode "1:2" "Screen - home" FRAME
    (Some {| x := 0; y := 0; width := 328; height := 640 |})
    (Some []) (Some []) None (StyleId "")
    (Some {| layoutMode := NONE; paddingTop := 0; paddingRight := 0;
             paddingBottom := 0; paddingLeft := 0 |})
    (Some [scenarioText]).

(** A frame whose name holds neither "screen" nor "card". *)
Definition modalFrame : Node :=
  mkNode "1:4" "Modal - login" FRAME
    (Some {| x := 0; y := 0; width := 320; height := 240 |})
    (Some []) (Some []) None (StyleId "") None (Some []).

(* ===================================================================== *)
(** ** Vocabulary of the further properties *)
(* ===================================================================== *)

(** A step of the evaluation that appends a list of issues which does not
    depend on the run it starts from, all of them satisfying [P], and
    starts no style lookup. *)
Definition issuing (P : CheckIssue -> Prop) (step : Run -> Run) : Prop :=
  exists l, Forall P l /\
    forall run, results (step run) = addIssues l (results run) /\
                pending (step run) = pending run.

(** An issue of category [c] that refers to [node]. *)
Definition issue_of (c : string) (node : Node) (i : CheckIssue) : Prop :=
  category i = c /\ nodeId i = id node.

(** The six categories. *)
Definition categories : list string :=
  ["color"; "typography"; "spacing"; "components"; "naming"; "accessibility"].

(** An issue of one of the six categories that refers to [node]. *)
Definition issue_at (node : Node) (i : CheckIssue) : Prop :=
  category i ∈ categories /\ nodeId i = id node.

(** A visible solid paint whose colour is not in the palette. *)
Definition nonStandardPaint (config : StandardsConfig) (paint : Paint) : bool :=
  match paint_type paint with
  | SOLID =>
      visible paint &&
      negb (isColorAllowed config
              (rgbToHex (r (color paint)) (g (color paint)) (b (color paint))))
  | OTHER_PAINT => false
  end.

(** The issue [checkColors] reports for a paint of [node]. *)
Definition colorIssue (wording : string) (node : Node) (paint : Paint) : CheckIssue :=
  {| category := "color";
     message := wording +:+
                rgbToHex (r (color paint)) (g (color paint)) (b (color paint)) +:+
                " used in " +:+ name node;
     nodeId := id node |}.

(** The issues of the paints of one list. *)
Definition paintIssues (config : StandardsConfig) (wording : string) (node : Node)
    (paints : option (list Paint)) : list CheckIssue :=
  map (colorIssue wording node)
    (List.filter (nonStandardPaint config) (default [] paints)).

(** The typography issues known when the evaluation returns. *)
Definition typographyIssues (config : StandardsConfig) (node : Node)
  : list CheckIssue :=
  match type node with
  | TEXT =>
      match fontName node with
      | Some (Font family _) =>
          if bool_decide (family ∈ allowedFonts (typography config)) then []
          else [fontIssue family node]
      | _ => []
      end ++
      match textStyleId node with
      | StyleId "" => [missingStyleIssue node]
      | _ => []
      end
  | _ => []
  end.

(** The style lookup a node starts: one for a text node whose style
    identifier is not empty. *)
Definition styleLookups (node : Node) : list StyleLookup :=
  match type node with
  | TEXT =>
      match textStyleId node with
      | StyleId "" => []
      | styleId =>
          [ {| lookup_style := styleId;
               lookup_name := name node;
               lookup_id := id node |} ]
      end
  | _ => []
  end.

(** The nodes below [node]: its subtree without [node] itself. *)
Definition descendants (node : Node) : list Node := tail (preorder node).

(** The values [checkSpacing] tests against the grid: position and size
    of a container, and the four paddings of a frame with an automatic
    layout. *)
Definition gridValues (node : Node) : list Q :=
  match type node with
  | FRAME | GROUP | COMPONENT | INSTANCE =>
      match geometry node with
      | Some geo =>
          [x geo; y geo; width geo; height geo] ++
          match type node, layout node with
          | FRAME, Some frame =>
              match layoutMode frame with
              | NONE => []
              | _ => [paddingTop frame; paddingRight frame;
                      paddingBottom frame; paddingLeft frame]
              end
          | _, _ => []
          end
      | None => []
      end
  | _ => []
  end.

(** The pattern [checkNaming] tests a node of a given type against, and
    the word its message starts with. *)
Definition namingPattern (config : StandardsConfig) (t : NodeType) : RegExp :=
  match t with
  | FRAME => Patterns.frames (patterns (naming config))
  | COMPONENT | INSTANCE => Patterns.components (patterns (naming config))
  | _ => Patterns.layers (patterns (naming config))
  end.

Definition namingWord (t : NodeType) : string :=
  match t with
  | FRAME => "Frame "
  | COMPONENT | INSTANCE => "Component "
  | _ => "Layer "
  end.

(** An interactive element with a geometry below the minimum size. *)
Definition tooSmallForTouch (config : StandardsConfig) (node : Node) : bool :=
  isInteractiveElement node &&
  match geometry node with
  | Some geo =>
      negb (Qle_bool (interactiveElementMinSize (accessibility config)) (width geo)) ||
      negb (Qle_bool (interactiveElementMinSize (accessibility config)) (height geo))
  | None => false
  end.

(** The required components of a frame that no node below it is named
    after, in the order of the configuration. *)
Definition missingComponents (config : StandardsConfig) (node : Node) : list string :=
  match type node with
  | FRAME =>
      match getFrameType (name node) with
      | Some frameType =>
          match requiredComponentsFor config frameType with
          | Some required =>
              List.filter (fun name => negb (hasComponentNamed node name)) required
          | None => []
          end
      | None => []
      end
  | _ => []
  end.

(** A node that is named after a component which must be an instance,
    and is neither an instance nor a component. *)
Definition shouldBeInstance (config : StandardsConfig) (node : Node) : bool :=
  negb (String.eqb (getComponentName (name node)) "") &&
  bool_decide (getComponentName (name node) ∈ mustBeInstances (components config)) &&
  match type node with
  | INSTANCE | COMPONENT => false
  | _ => true
  end.

(** A digit of an upper-case hexadecimal numeral. *)
Definition is_hex_digit (c : ascii) : bool :=
  let n := nat_of_ascii c in
  ((48 <=? n) && (n <=? 57)) || ((65 <=? n) && (n <=? 70)).

(** The test of the add-colour button of the UI script: the colour is a
    hash sign followed by exactly six upper-case hexadecimal digits. *)
Definition is_hex_color (color : string) : bool :=
  match color with
  | String "#"%char digits =>
      (String.length digits =? 6) && all_chars is_hex_digit digits
  | _ => false
  end.

(** A string without a slash. *)
Definition no_slash (s : string) : bool :=
  all_chars (fun c => negb (Ascii.eqb c "/")) s.


(** The configuration with another tolerance of the grid. *)
Definition withTolerancePercent (config : StandardsConfig) (percent : Q)
  : StandardsConfig :=
  withSpacing config
    {| baseUnit := baseUnit (spacing config); tolerancePercent := percent |}.




(** A pattern whose literal form [loadConfigFromDocument] can read back:
    no line terminator in the source, flags among [gimuy]. *)
Definition literal_ok (p : RegExp) : bool :=
  all_chars (fun c => negb (is_line_terminator c)) (source p) &&
  all_chars is_flag (flags p).

(** The three naming patterns of a typed configuration. *)
Definition namingPatterns (c : StandardsConfig) : list RegExp :=
  [Patterns.frames (patterns (naming c));
   Patterns.components (patterns (naming c));
   Patterns.layers (patterns (naming c))].

(* ===================================================================== *)
(** ** The colour list of the UI script *)
(* ===================================================================== *)



(** What a handler of the UI script leaves behind: the partial
    configuration posted to the plugin as ['update-config'] with the
    new [currentConfig] of the script, an alert, or an exception. *)
Inductive ClickOutcome :=
| Posted (partialConfig : value) (currentConfig : value)
| Alerted
| ClickThrew.

Module UI.

(** [updateConfig(partialConfig)] of the UI script; its [deepMerge] is
    a copy of the checker's. *)
Definition updateConfig (currentConfig partialConfig : value) : ClickOutcome :=
  Posted partialConfig (deepMerge currentConfig partialConfig).



End UI.


(* ===================================================================== *)
(** ** The handlers of [main] *)
(* ===================================================================== *)

(** What the handlers read and write of the document: the selection of
    the current page, the page, and the plugin data of the nodes, by
    node identifier and key. *)
Record Document := {
  selection : list Node;
  currentPage : Node;
  nodeData : gmap (string * string) string
}.

(** [node.getPluginData(key)]: the empty string when nothing is stored. *)
Definition getPluginData (doc : Document) (node : Node) (key : string) : string :=
  default EmptyString (nodeData doc !! (id node, key)).

(** [node.setPluginData(key, value)]. *)
Definition setPluginData (doc : Document) (node : Node) (key value : string)
  : Document :=
  {| selection := selection doc;
     currentPage := currentPage doc;
     nodeData := <[(id node, key) := value]> (nodeData doc) |}.

(** What a handler shows: the results posted to the UI, or one of the
    notifications, with the parts of its text that vary. *)
Inductive Output :=
| ShowResults (results : CheckResults)
| NotifyMarkedReady
| NotifyIssuesFound (issuesFound : nat)
| NotifySelectFrame
| NotifyAlreadyReady (timestamp : option string)
| NotifyIssue (text : string).

(** The text of [PluginUI.notifyIssue]. *)
Definition notifyIssue (issue : CheckIssue) : Output :=
  NotifyIssue (toUpperCase (category issue) +:+ ": " +:+ message issue).

Section Handlers.

Variable RegExp_test : RegExp -> string -> bool.
Variable Number_toString : Q -> string.
Variable config : StandardsConfig.

(** [new Date().toISOString()] at the time of the message. *)
Variable now : string.

(** The case ['check-ready-for-dev'] of [figma.ui.onmessage]. *)
Definition onCheckReadyForDev (doc : Document) : Document * list Output :=
  match selection doc with
  | selectedNode :: _ =>
      let results :=
        runAllChecks RegExp_test Number_toString config selectedNode true in
      if passed results then
        (setPluginData (setPluginData doc selectedNode "readyForDev" "true")
           selectedNode "readyForDevTimestamp" now,
         [NotifyMarkedReady])
      else
        (doc, [ShowResults results; NotifyIssuesFound (issuesFound (stats results))])
  | [] => (doc, [NotifySelectFrame])
  end.

(** The handler of ["selectionchange"]. *)
Definition onSelectionChange (doc : Document) : list Output :=
  match selection doc with
  | [node] =>
      if String.eqb (getPluginData doc node "readyForDev") "true" then
        let timestamp := getPluginData doc node "readyForDevTimestamp" in
        [NotifyAlreadyReady
           (if truthy (VStr timestamp) then Some timestamp else None)]
      else
        let quickResults :=
          runAllChecks RegExp_test Number_toString config node false in
        if negb (passed quickResults) then
          ShowResults quickResults ::
          match issues quickResults with
          | first :: _ => [notifyIssue first]
          | [] => []
          end
        else []
  | _ => []
  end.

End Handlers.

(* ===================================================================== *)
(** ** Properties of the results *)
(* ===================================================================== *)

Lemma countCategory_app c l1 l2 :
  countCategory c (l1 ++ l2) = countCategory c l1 + countCategory c l2.
Proof. unfold countCategory. by rewrite filter_app, length_app. Qed.

Lemma countCategory_one c i :
  countCategory c [i] = if decide (category i = c) then 1 else 0.
Proof.
  unfold countCategory. rewrite filter_cons, filter_nil.
  by destruct (decide (category i = c)).
Qed.

Lemma consistent_empty : consistent emptyResults.
Proof. split; [done | done | intros c; apply lookup_empty]. Qed.

Lemma addIssue_consistent results c m n :
  consistent results -> consistent (addIssue results c m n).
Proof.
  intros [Hp Hf Hc]. split; simpl.
  - rewrite length_app. simpl. symmetry. apply bool_decide_eq_false. lia.
  - rewrite length_app, Hf. simpl. lia.
  - intros c'. rewrite countCategory_app, countCategory_one. simpl.
    destruct (decide (c = c')) as [<- | Hne].
    + rewrite lookup_insert_eq. specialize (Hc c).
      destruct (countCategory c (issues results)) as [|k] eqn:Hk;
        simpl in Hc; rewrite Hc.
      * rewrite lookup_insert_eq. by case_decide.
      * rewrite Hc. simpl. f_equal. lia.
    + specialize (Hc c'). rewrite Nat.add_0_r.
      rewrite lookup_insert_ne by done.
      destruct (categoryCounts (stats results) !! c) as [[|k]|];
        [rewrite lookup_insert_ne by done | | rewrite lookup_insert_ne by done];
        exact Hc.
Qed.

Lemma visited_consistent k results :
  consistent results -> consistent (visited k results).
Proof. intros [Hp Hf Hc]. by split. Qed.

Lemma addIssues_consistent l results :
  consistent results -> consistent (addIssues l results).
Proof.
  revert results. induction l as [|i l IH]; intros results H; [done |].
  apply IH. by apply addIssue_consistent.
Qed.

Lemma addIssues_app l1 l2 results :
  addIssues (l1 ++ l2) results = addIssues l2 (addIssues l1 results).
Proof. apply fold_left_app. Qed.

Lemma addIssues_issues l results :
  issues (addIssues l results) = (issues results ++ l)%list.
Proof.
  revert results. induction l as [|i l IH]; intros results; simpl.
  - by rewrite app_nil_r.
  - rewrite IH. simpl. destruct i. by rewrite <- app_assoc.
Qed.

Lemma addIssues_nodesChecked l results :
  nodesChecked (stats (addIssues l results)) = nodesChecked (stats results).
Proof.
  revert results. induction l as [|i l IH]; intros results; simpl; [done |].
  by rewrite IH.
Qed.

Lemma addIssues_visited l k results :
  addIssues l (visited k results) = visited k (addIssues l results).
Proof.
  revert results. induction l as [|i l IH]; intros results; simpl; [done |].
  by rewrite <- IH.
Qed.

Lemma visited_visited j k results :
  visited j (visited k results) = visited (j + k) results.
Proof. unfold visited. simpl. do 2 f_equal. lia. Qed.

Lemma extends_refl P res : extends P res res.
Proof. by exists []. Qed.

Lemma extends_addIssue P res res' c m n :
  P {| category := c; message := m; nodeId := n |} ->
  extends P res res' ->
  extends P res (addIssue res' c m n).
Proof.
  intros Hi (l & Hl & ->).
  exists (l ++ [ {| category := c; message := m; nodeId := n |} ]).
  split; [apply Forall_app; by repeat constructor |].
  by rewrite addIssues_app.
Qed.

Lemma extends_report P res run c m n :
  P {| category := c; message := m; nodeId := n |} ->
  extends P res (results run) ->
  extends P res (results (report c m n run)).
Proof. apply extends_addIssue. Qed.

Lemma extends_trans P res1 res2 res3 :
  extends P res1 res2 -> extends P res2 res3 -> extends P res1 res3.
Proof.
  intros (l1 & H1 & ->) (l2 & H2 & ->). exists (l1 ++ l2).
  split; [by apply Forall_app | by rewrite addIssues_app].
Qed.

Lemma extends_weaken (P Q : CheckIssue -> Prop) res res' :
  (forall i, P i -> Q i) -> extends P res res' -> extends Q res res'.
Proof.
  intros HPQ (l & Hl & ->). exists l. split; [| done].
  eapply Forall_impl; eauto.
Qed.

Lemma extends_fold_left {A} P res (step : Run -> A -> Run) (l : list A) run :
  (forall run a, extends P res (results run) ->
                 extends P res (results (step run a))) ->
  extends P res (results run) ->
  extends P res (results (fold_left step l run)).
Proof.
  intros Hstep. revert run. induction l as [|a l IH]; intros run H; [done |].
  simpl. by apply IH, Hstep.
Qed.

Section EngineProperties.

Variable RegExp_test : RegExp -> string -> bool.
Variable Number_toString : Q -> string.
Variable config : StandardsConfig.

(** Each checker only appends issues, and only of its own category. *)

Lemma checkPaints_extends wording node paints res run :
  extends (of_category "color") res (results run) ->
  extends (of_category "color") res
    (results (checkPaints config wording node paints run)).
Proof.
  intros H. unfold checkPaints. destruct paints as [paints|]; [| done].
  apply extends_fold_left; [| done].
  intros run' paint H'. repeat case_match; try done.
  by apply extends_report.
Qed.

Lemma checkColors_extends node res run :
  extends (of_category "color") res (results run) ->
  extends (of_category "color") res (results (checkColors config node run)).
Proof. intros H. unfold checkColors. by do 2 apply checkPaints_extends. Qed.

Lemma checkTypography_extends node res run :
  extends (of_category "typography") res (results run) ->
  extends (of_category "typography") res
    (results (checkTypography config node run)).
Proof.
  intros H. unfold checkTypography.
  repeat case_match; simpl; try done;
    repeat (apply extends_addIssue; [done |]); done.
Qed.

Lemma checkOnGrid_extends value message node res run :
  extends (of_category "spacing") res (results run) ->
  extends (of_category "spacing") res
    (results (checkOnGrid config value message node run)).
Proof.
  intros H. unfold checkOnGrid. case_match; [by apply extends_report | done].
Qed.

Lemma checkSpacing_extends node res run :
  extends (of_category "spacing") res (results run) ->
  extends (of_category "spacing") res
    (results (checkSpacing Number_toString config node run)).
Proof.
  intros H. unfold checkSpacing.
  repeat case_match; try done; by repeat apply checkOnGrid_extends.
Qed.

Lemma checkComponents_extends node res run :
  extends (of_category "components") res (results run) ->
  extends (of_category "components") res
    (results (checkComponents config node run)).
Proof.
  intros H. unfold checkComponents.
  set (run1 := match type node with FRAME => _ | _ => run end).
  assert (extends (of_category "components") res (results run1)) as H1.
  { subst run1. repeat case_match; try done.
    all: apply extends_fold_left; [| done].
    all: intros run' required H'; try case_match; try done;
      by apply extends_report. }
  repeat case_match; try done; by apply extends_report.
Qed.

Lemma checkNaming_extends node res run :
  extends (of_category "naming") res (results run) ->
  extends (of_category "naming") res
    (results (checkNaming RegExp_test config node run)).
Proof.
  intros H. unfold checkNaming.
  destruct (type node); repeat case_match; try done;
    repeat (apply extends_report; [done |]); done.
Qed.

Lemma checkAccessibility_extends node res run :
  extends (of_category "accessibility") res (results run) ->
  extends (of_category "accessibility") res
    (results (checkAccessibility Number_toString config node run)).
Proof.
  intros H. unfold checkAccessibility.
  set (run1 := match type node with TEXT => _ | _ => run end).
  assert (extends (of_category "accessibility") res (results run1)) as H1.
  { subst run1. repeat case_match; try done. by apply extends_report. }
  repeat case_match; try done; by apply extends_report.
Qed.

End EngineProperties.

(* ===================================================================== *)
(** ** Properties of the traversal *)
(* ===================================================================== *)

(** Induction on a node tree: the property may be assumed of every child. *)
Lemma Node_children_ind (P : Node -> Prop) :
  (forall node,
     (forall node_children, children node = Some node_children ->
                            Forall P node_children) ->
     P node) ->
  forall node, P node.
Proof.
  intros step. fix IH 1. intros [i n t ge fi st fo ts la [cs|]].
  - apply step. simpl. intros cs' [= <-].
    revert cs. fix IHcs 1. intros [|c cs]; constructor; [apply IH | apply IHcs].
  - apply step. simpl. intros cs' [=].
Qed.

Lemma subtreeSize_unfold node :
  subtreeSize node =
  S match children node with
    | Some node_children => sum_list (map subtreeSize node_children)
    | None => 0
    end.
Proof. by destruct node. Qed.

Lemma preorder_unfold node :
  preorder node =
  node :: match children node with
          | Some node_children => flat_map preorder node_children
          | None => []
          end.
Proof. by destruct node. Qed.

Lemma preorder_length node : length (preorder node) = subtreeSize node.
Proof.
  induction node as [node IH] using Node_children_ind.
  rewrite preorder_unfold, subtreeSize_unfold. simpl. f_equal.
  destruct (children node) as [cs|]; [| done].
  specialize (IH cs eq_refl).
  induction IH as [|child cs Hchild _ IHcs]; simpl; [done |].
  by rewrite length_app, Hchild, IHcs.
Qed.

Lemma visitedNodes_length isDeepCheck node :
  length (visitedNodes isDeepCheck node) = visitCount isDeepCheck node.
Proof. destruct isDeepCheck; [apply preorder_length | done]. Qed.

Section TraversalProperties.

Variable RegExp_test : RegExp -> string -> bool.
Variable Number_toString : Q -> string.
Variable config : StandardsConfig.

Lemma processNode_unfold node isDeepCheck run :
  processNode RegExp_test Number_toString config node isDeepCheck run =
  let run := checkNode RegExp_test Number_toString config node (countNode run) in
  if isDeepCheck then
    match children node with
    | Some node_children =>
        fold_left
          (fun run child =>
             processNode RegExp_test Number_toString config child isDeepCheck run)
          node_children run
    | None => run
    end
  else run.
Proof. by destruct node. Qed.

Lemma checker_any (P : CheckIssue -> Prop) (check : Run -> Run) res run :
  (forall res run, extends P res (results run) ->
                   extends P res (results (check run))) ->
  extends (fun _ => True) res (results run) ->
  extends (fun _ => True) res (results (check run)).
Proof.
  intros Hcheck H. eapply extends_trans; [exact H |].
  eapply extends_weaken; [| apply Hcheck, extends_refl]. done.
Qed.

Lemma checkNode_extends node res run :
  extends (fun _ => True) res (results run) ->
  extends (fun _ => True) res
    (results (checkNode RegExp_test Number_toString config node run)).
Proof.
  intros H. unfold checkNode.
  eapply checker_any; [apply checkAccessibility_extends |].
  eapply checker_any; [apply checkNaming_extends |].
  eapply checker_any; [apply checkComponents_extends |].
  eapply checker_any; [apply checkSpacing_extends |].
  eapply checker_any; [apply checkTypography_extends |].
  eapply checker_any; [apply checkColors_extends |].
  exact H.
Qed.

Lemma processNode_children_results node_children :
  Forall
    (fun child => forall isDeepCheck run, exists l,
       results (processNode RegExp_test Number_toString config child isDeepCheck run) =
       addIssues l (visited (visitCount isDeepCheck child) (results run)))
    node_children ->
  forall k l0 res run,
    results run = addIssues l0 (visited k res) ->
    exists l,
      results
        (fold_left
           (fun run child =>
              processNode RegExp_test Number_toString config child true run)
           node_children run) =
      addIssues l (visited (k + sum_list (map subtreeSize node_children)) res).
Proof.
  induction 1 as [|child cs Hchild _ IHcs]; intros k l0 res run H0; simpl.
  - exists l0. by rewrite Nat.add_0_r.
  - destruct (Hchild true run) as (l1 & H1).
    destruct (IHcs (k + subtreeSize child) (l0 ++ l1) res
                (processNode RegExp_test Number_toString config child true run))
      as (l & Hl).
    + rewrite H1, H0. simpl.
      rewrite <- addIssues_visited, addIssues_app, visited_visited.
      by rewrite (Nat.add_comm k).
    + exists l. rewrite Hl. by rewrite Nat.add_assoc.
Qed.

(** The results of [processNode]: the visited nodes are counted, and
    issues are appended. *)
Lemma processNode_results node : forall isDeepCheck run,
  exists l,
    results (processNode RegExp_test Number_toString config node isDeepCheck run) =
    addIssues l (visited (visitCount isDeepCheck node) (results run)).
Proof.
  induction node as [node IH] using Node_children_ind.
  intros isDeepCheck run. rewrite processNode_unfold. simpl.
  destruct (checkNode_extends node (visited 1 (results run)) (countNode run))
    as (l0 & _ & H0); [apply extends_refl |].
  unfold visitCount. rewrite subtreeSize_unfold.
  destruct isDeepCheck; [| by exists l0].
  destruct (children node) as [cs|]; [| by exists l0].
  apply (processNode_children_results cs (IH cs eq_refl) 1 l0 _ _ H0).
Qed.

(** [processNode] counts and checks each node of the subtree exactly
    once, in document order. *)
Lemma processNode_preorder node : forall isDeepCheck run,
  processNode RegExp_test Number_toString config node isDeepCheck run =
  fold_left
    (fun run visited_node =>
       checkNode RegExp_test Number_toString config visited_node (countNode run))
    (visitedNodes isDeepCheck node) run.
Proof.
  induction node as [node IH] using Node_children_ind.
  intros isDeepCheck run. rewrite processNode_unfold. cbv zeta.
  unfold visitedNodes. rewrite preorder_unfold.
  destruct isDeepCheck; [| done]. simpl.
  destruct (children node) as [cs|]; [| done].
  specialize (IH cs eq_refl).
  generalize (checkNode RegExp_test Number_toString config node (countNode run)).
  induction IH as [|child cs Hchild _ IHcs]; intros run'; simpl; [done |].
  rewrite fold_left_app, <- IHcs. f_equal. apply (Hchild true).
Qed.

End TraversalProperties.

Lemma settleLookup_consistent config lookup outcome res :
  consistent res -> consistent (settleLookup config lookup outcome res).
Proof.
  intros H. unfold settleLookup.
  repeat case_match; try done; by apply addIssue_consistent.
Qed.

Lemma settleAll_consistent config settled res :
  consistent res -> consistent (settleAll config settled res).
Proof.
  revert res. induction settled as [|s settled IH]; intros res H; [done |].
  apply IH. by apply settleLookup_consistent.
Qed.

Lemma runAllChecks_consistent RegExp_test Number_toString config node isDeepCheck :
  consistent (runAllChecks RegExp_test Number_toString config node isDeepCheck).
Proof.
  unfold runAllChecks, runAllChecks_run.
  destruct (processNode_results RegExp_test Number_toString config node isDeepCheck
              {| results := emptyResults; pending := [] |}) as (l & ->).
  apply addIssues_consistent, visited_consistent, consistent_empty.
Qed.

(** C7. Whatever the node tree, the configuration and the depth flag,
    the results returned by the evaluation satisfy
    [passed == (issues.length == 0)],
    [stats.issuesFound == issues.length], and [stats.categoryCounts] maps
    each category to the number of issues of that category, with no entry
    for a category without issue. The same relations hold again after
    the callbacks of any settled style lookups have run on the returned
    object, and every single [addIssue] preserves them. *)
Theorem evaluation_results_consistent
    (RegExp_test : RegExp -> string -> bool) (Number_toString : Q -> string)
    (config : StandardsConfig) (node : Node) (isDeepCheck : bool) :
  consistent (runAllChecks RegExp_test Number_toString config node isDeepCheck) /\
  (forall settled,
     consistent
       (settleAll config settled
          (runAllChecks RegExp_test Number_toString config node isDeepCheck))) /\
  (forall res category message nodeId,
     consistent res -> consistent (addIssue res category message nodeId)).
Proof.
  pose proof (runAllChecks_consistent RegExp_test Number_toString config node
                isDeepCheck) as H.
  split; [exact H |]. split.
  - intros settled. by apply settleAll_consistent.
  - intros res c m n. apply addIssue_consistent.
Qed.

(** The relations of C7 at a concrete results object: one issue appended
    to the empty results. *)
Lemma evaluation_results_consistent_witness :
  consistent (addIssue emptyResults "color" "Non-standard color #000000 used in a" "1:2").
Proof.
  apply (proj2 (proj2 (evaluation_results_consistent
                         (fun _ _ => true) (fun _ => "0") defaultConfig
                         (mkNode "1:2" "a" OTHER None None None None (StyleId "")
                            None None)
                         false))).
  apply consistent_empty.
Defined.

(** C8. The evaluation returns [stats.nodesChecked] equal to the number
    of visited nodes: 1 for a shallow check, the size of the subtree
    rooted at the given node for a deep check, whatever issues the nodes
    produce. The run counts and checks each node of the visited subtree
    exactly once, in document order, and each call of [processNode] adds
    exactly the number of nodes it is to visit to the counter it finds. *)
Theorem nodesChecked_is_visited_subtree_size
    (RegExp_test : RegExp -> string -> bool) (Number_toString : Q -> string)
    (config : StandardsConfig) (node : Node) :
  nodesChecked (stats (runAllChecks RegExp_test Number_toString config node false)) = 1 /\
  nodesChecked (stats (runAllChecks RegExp_test Number_toString config node true)) =
    subtreeSize node /\
  (forall isDeepCheck,
     runAllChecks_run RegExp_test Number_toString config node isDeepCheck =
     fold_left
       (fun run visited_node =>
          checkNode RegExp_test Number_toString config visited_node (countNode run))
       (visitedNodes isDeepCheck node)
       {| results := emptyResults; pending := [] |} /\
     nodesChecked
       (stats (runAllChecks RegExp_test Number_toString config node isDeepCheck)) =
     length (visitedNodes isDeepCheck node)) /\
  (forall isDeepCheck run,
     nodesChecked
       (stats (results (processNode RegExp_test Number_toString config node
                          isDeepCheck run))) =
     visitCount isDeepCheck node + nodesChecked (stats (results run))).
Proof.
  assert (forall isDeepCheck run,
     nodesChecked
       (stats (results (processNode RegExp_test Number_toString config node
                          isDeepCheck run))) =
     visitCount isDeepCheck node + nodesChecked (stats (results run))) as H.
  { intros isDeepCheck run.
    destruct (processNode_results RegExp_test Number_toString config node isDeepCheck run)
      as (l & ->).
    by rewrite addIssues_nodesChecked. }
  split; [| split; [| split; [| exact H]]].
  - unfold runAllChecks, runAllChecks_run. by rewrite H.
  - unfold runAllChecks, runAllChecks_run. rewrite H. simpl. lia.
  - intros isDeepCheck. split.
    + apply processNode_preorder.
    + unfold runAllChecks, runAllChecks_run.
      rewrite H, visitedNodes_length. simpl. lia.
Qed.

(* ===================================================================== *)
(** ** Required components and frame types *)
(* ===================================================================== *)

Lemma getFrameType_cases name :
  getFrameType name = Some "screen" \/ getFrameType name = Some "card" \/
  getFrameType name = None.
Proof. unfold getFrameType. repeat case_match; auto. Qed.

Lemma requiredComponentsFor_other_entry config before key required after frameType :
  frameType <> key ->
  requiredComponentsFor
    (withRequiredComponents config (before ++ (key, required) :: after)) frameType =
  requiredComponentsFor (withRequiredComponents config (before ++ after)) frameType.
Proof.
  intros Hne. unfold requiredComponentsFor. simpl. f_equal.
  induction before as [|entry before IH]; simpl.
  - destruct (String.eqb_spec key frameType); [congruence | done].
  - by rewrite IH.
Qed.

Section OtherFrameTypes.

Variable RegExp_test : RegExp -> string -> bool.
Variable Number_toString : Q -> string.
Variable config : StandardsConfig.
Variables (before after : list (string * list string)).
Variables (key : string) (required : list string).
Hypothesis not_screen : key <> "screen".
Hypothesis not_card : key <> "card".

Let config_with := withRequiredComponents config (before ++ (key, required) :: after).
Let config_without := withRequiredComponents config (before ++ after).

Lemma checkComponents_other_entry node run :
  checkComponents config_with node run = checkComponents config_without node run.
Proof.
  unfold checkComponents. simpl.
  replace (match type node with FRAME => _ | _ => run end)
    with (match type node with
          | FRAME =>
              match getFrameType (name node) with
              | Some frameType =>
                  match requiredComponentsFor config_without frameType with
                  | Some requiredComponents =>
                      fold_left
                        (fun run requiredComponent =>
                           let hasComponent :=
                             match children node with
                             | Some _ => hasComponentNamed node requiredComponent
                             | None => false
                             end in
                           if negb hasComponent then
                             report "components"
                               (name node +:+ " is missing required component: " +:+
                                requiredComponent)
                               (id node) run
                           else run)
                        requiredComponents run
                  | None => run
                  end
              | None => run
              end
          | _ => run
          end); [done |].
  destruct (type node); try done.
  destruct (getFrameType_cases (name node)) as [-> | [-> | ->]]; [| | done].
  - unfold config_with, config_without.
    by rewrite requiredComponentsFor_other_entry.
  - unfold config_with, config_without.
    by rewrite requiredComponentsFor_other_entry.
Qed.

(** The other five checkers do not read [requiredComponents]. *)

Lemma checkColors_other_entry node run :
  checkColors config_with node run = checkColors config_without node run.
Proof. reflexivity. Qed.

Lemma checkTypography_other_entry node run :
  checkTypography config_with node run = checkTypography config_without node run.
Proof. reflexivity. Qed.

Lemma checkOnGrid_other_entry value message node run :
  checkOnGrid config_with value message node run =
  checkOnGrid config_without value message node run.
Proof. reflexivity. Qed.

Lemma checkSpacing_other_entry node run :
  checkSpacing Number_toString config_with node run =
  checkSpacing Number_toString config_without node run.
Proof.
  unfold checkSpacing. repeat case_match; try done;
    by rewrite !checkOnGrid_other_entry.
Qed.

Lemma checkNaming_other_entry node run :
  checkNaming RegExp_test config_with node run =
  checkNaming RegExp_test config_without node run.
Proof. reflexivity. Qed.

Lemma checkAccessibility_other_entry node run :
  checkAccessibility Number_toString config_with node run =
  checkAccessibility Number_toString config_without node run.
Proof. reflexivity. Qed.

Lemma checkNode_other_entry node run :
  checkNode RegExp_test Number_toString config_with node run =
  checkNode RegExp_test Number_toString config_without node run.
Proof.
  unfold checkNode.
  by rewrite checkColors_other_entry, checkTypography_other_entry,
    checkSpacing_other_entry, checkComponents_other_entry,
    checkNaming_other_entry, checkAccessibility_other_entry.
Qed.

Lemma processNode_other_entry node : forall isDeepCheck run,
  processNode RegExp_test Number_toString config_with node isDeepCheck run =
  processNode RegExp_test Number_toString config_without node isDeepCheck run.
Proof.
  induction node as [node IH] using Node_children_ind.
  intros isDeepCheck run. rewrite !processNode_unfold. cbv zeta.
  rewrite checkNode_other_entry. destruct isDeepCheck; [| done].
  destruct (children node) as [cs|]; [| done].
  specialize (IH cs eq_refl).
  generalize (checkNode RegExp_test Number_toString config_without node (countNode run)).
  induction IH as [|child cs Hchild _ IHcs]; intros run'; simpl; [done |].
  by rewrite Hchild, IHcs.
Qed.

End OtherFrameTypes.

(** C10. An entry of [components.requiredComponents] whose key is neither
    ["screen"] nor ["card"] never produces an issue: for every
    configuration, node tree and depth flag, the evaluation returns the
    same results with the entry as without it, wherever the entry stands
    and whatever it requires. *)
Theorem other_frame_type_entry_ignored
    (RegExp_test : RegExp -> string -> bool) (Number_toString : Q -> string)
    (config : StandardsConfig) (before after : list (string * list string))
    (key : string) (required : list string) (node : Node) (isDeepCheck : bool) :
  key <> "screen" -> key <> "card" ->
  runAllChecks RegExp_test Number_toString
    (withRequiredComponents config (before ++ (key, required) :: after))
    node isDeepCheck =
  runAllChecks RegExp_test Number_toString
    (withRequiredComponents config (before ++ after))
    node isDeepCheck.
Proof.
  intros Hscreen Hcard. unfold runAllChecks, runAllChecks_run.
  by rewrite processNode_other_entry.
Qed.

(** C10 at a concrete entry: a ["modal"] entry in front of the default
    ones, for the frame named "Modal - login". *)
Lemma other_frame_type_entry_ignored_witness :
  runAllChecks (fun _ _ => true) (fun _ => "0")
    (withRequiredComponents defaultConfig
       ([] ++ ("modal", ["Header"; "CloseButton"]) ::
              requiredComponents (components defaultConfig)))
    modalFrame true =
  runAllChecks (fun _ _ => true) (fun _ => "0")
    (withRequiredComponents defaultConfig
       ([] ++ requiredComponents (components defaultConfig)))
    modalFrame true.
Proof.
  apply (other_frame_type_entry_ignored _ _ defaultConfig [] _ "modal");
    discriminate.
Defined.

(* ===================================================================== *)
(** ** The default-configuration scenario *)
(* ===================================================================== *)

Lemma extends_issues P res res' :
  extends P res res' -> exists l, Forall P l /\ issues res' = issues res ++ l.
Proof. intros (l & Hl & ->). exists l. by rewrite addIssues_issues. Qed.

Lemma countCategory_other c l :
  Forall (fun i => category i <> c) l -> countCategory c l = 0.
Proof.
  induction 1 as [|i l Hi _ IH]; [done |].
  change (i :: l) with ([i] ++ l).
  rewrite countCategory_app, countCategory_one, IH. by case_decide.
Qed.

Section Scenario.

Variable RegExp_test : RegExp -> string -> bool.
Variable Number_toString : Q -> string.
Variable config : StandardsConfig.

Lemma checker_not_typography (c : string) (check : Run -> Run) res run :
  c <> "typography" ->
  (forall res run, extends (of_category c) res (results run) ->
                   extends (of_category c) res (results (check run))) ->
  extends not_typography res (results run) ->
  extends not_typography res (results (check run)).
Proof.
  intros Hc Hcheck H. eapply extends_trans; [exact H |].
  eapply extends_weaken; [| apply Hcheck, extends_refl].
  unfold of_category, not_typography. by intros i ->.
Qed.

Lemma checkTypography_not_text node run :
  type node <> TEXT -> checkTypography config node run = run.
Proof. intros H. unfold checkTypography. by destruct (type node). Qed.

(** A node that is not a text node gets no typography issue. *)
Lemma checkNode_not_text node res run :
  type node <> TEXT ->
  extends not_typography res (results run) ->
  extends not_typography res
    (results (checkNode RegExp_test Number_toString config node run)).
Proof.
  intros Htype H. unfold checkNode.
  eapply checker_not_typography; [| apply checkAccessibility_extends |]; [done |].
  eapply checker_not_typography; [| apply checkNaming_extends |]; [done |].
  eapply checker_not_typography; [| apply checkComponents_extends |]; [done |].
  eapply checker_not_typography; [| apply checkSpacing_extends |]; [done |].
  rewrite checkTypography_not_text by done.
  eapply checker_not_typography; [| apply checkColors_extends |]; done.
Qed.

(** A text node whose font is not allowed and that has no style gets
    exactly the two typography issues, in this order. *)
Lemma checkNode_text_font_no_style node family style res run :
  type node = TEXT ->
  fontName node = Some (Font family style) ->
  family ∉ allowedFonts (typography config) ->
  textStyleId node = StyleId "" ->
  extends not_typography res (results run) ->
  exists res1,
    extends not_typography res res1 /\
    extends not_typography
      (addIssues [fontIssue family node; missingStyleIssue node] res1)
      (results (checkNode RegExp_test Number_toString config node run)).
Proof.
  intros Htype Hfont Hfamily Hstyle H.
  exists (results (checkColors config node run)). split.
  - eapply checker_not_typography; [| apply checkColors_extends |]; done.
  - unfold checkNode.
    eapply checker_not_typography; [| apply checkAccessibility_extends |]; [done |].
    eapply checker_not_typography; [| apply checkNaming_extends |]; [done |].
    eapply checker_not_typography; [| apply checkComponents_extends |]; [done |].
    eapply checker_not_typography; [| apply checkSpacing_extends |]; [done |].
    unfold checkTypography. rewrite Htype, Hfont, Hstyle.
    rewrite bool_decide_eq_false_2 by done. simpl. apply extends_refl.
Qed.

End Scenario.

(** C9. Under the default configuration, a frame (such as the one named
    "Screen - home") with one child text node whose font family is
    "Arial" and which has no text style, evaluated with [deep = true],
    yields at least two issues, among them the typography issue for the
    font and the typography issue for the missing style;
    [categoryCounts.typography] is 2 and [passed] is false. *)
Theorem default_scenario_typography
    (RegExp_test : RegExp -> string -> bool) (Number_toString : Q -> string)
    (frame text : Node) (style : string) :
  type frame = FRAME ->
  children frame = Some [text] ->
  type text = TEXT ->
  fontName text = Some (Font "Arial" style) ->
  textStyleId text = StyleId "" ->
  children text = None ->
  let res := runAllChecks RegExp_test Number_toString defaultConfig frame true in
  2 <= length (issues res) /\
  fontIssue "Arial" text ∈ issues res /\
  missingStyleIssue text ∈ issues res /\
  categoryCounts (stats res) !! "typography" = Some 2 /\
  passed res = false.
Proof.
  intros Hframe Hchildren Htext Hfont Hstyle Hleaf res.
  assert (exists before after,
            Forall not_typography before /\ Forall not_typography after /\
            issues res =
            before ++ [fontIssue "Arial" text; missingStyleIssue text] ++ after)
    as (before & after & Hbefore & Hafter & Hissues).
  { subst res. unfold runAllChecks, runAllChecks_run.
    rewrite processNode_unfold, Hchildren. cbv zeta. simpl fold_left.
    rewrite processNode_unfold, Hleaf. cbv zeta.
    set (run0 := countNode {| results := emptyResults; pending := [] |}).
    set (run1 := checkNode RegExp_test Number_toString defaultConfig frame run0).
    assert (extends not_typography (results run0) (results run1)) as H1.
    { apply checkNode_not_text; [by rewrite Hframe | apply extends_refl]. }
    destruct (checkNode_text_font_no_style RegExp_test Number_toString defaultConfig
                text "Arial" style (results (countNode run1)) (countNode run1))
      as (res1 & H2 & H3); try done.
    { apply not_elem_of_cons; split; [done |].
      apply not_elem_of_cons; split; [done |].
      apply not_elem_of_cons; split; [done |]. apply not_elem_of_nil. }
    { apply extends_refl. }
    apply extends_issues in H1 as (l1 & Hl1 & E1).
    apply extends_issues in H2 as (l2 & Hl2 & E2).
    apply extends_issues in H3 as (l3 & Hl3 & E3).
    exists (l1 ++ l2), l3. split; [by apply Forall_app |]. split; [done |].
    rewrite E3, addIssues_issues, E2. simpl.
    rewrite E1. simpl. by rewrite <- !app_assoc. }
  assert (countCategory "typography" (issues res) = 2) as Hcount.
  { rewrite Hissues, !countCategory_app.
    rewrite (countCategory_other _ before), (countCategory_other _ after) by done.
    done. }
  pose proof (runAllChecks_consistent RegExp_test Number_toString defaultConfig
                frame true) as [Hp _ Hc].
  fold res in Hp, Hc.
  assert (2 <= length (issues res)) as Hlen.
  { rewrite Hissues, !length_app. simpl. lia. }
  split; [exact Hlen |]. split; [| split; [| split]].
  - rewrite Hissues. apply elem_of_app. right. apply elem_of_app. left.
    apply elem_of_cons. by left.
  - rewrite Hissues. apply elem_of_app. right. apply elem_of_app. left.
    apply elem_of_cons. right. apply elem_of_cons. by left.
  - rewrite Hc, Hcount. done.
  - rewrite Hp. apply bool_decide_eq_false. lia.
Qed.

(** C9 at the concrete nodes [scenarioFrame] and [scenarioText]. *)
Lemma default_scenario_typography_witness :
  let res := runAllChecks (fun _ name => String.eqb name "Screen - home")
               (fun _ => "0") defaultConfig scenarioFrame true in
  2 <= length (issues res) /\
  fontIssue "Arial" scenarioText ∈ issues res /\
  missingStyleIssue scenarioText ∈ issues res /\
  categoryCounts (stats res) !! "typography" = Some 2 /\
  passed res = false.
Proof.
  apply (default_scenario_typography _ _ scenarioFrame scenarioText "Regular");
    reflexivity.
Defined.

(* ===================================================================== *)
(** ** The grid test *)
(* ===================================================================== *)

Local Open Scope Q_scope.

Lemma Qtrunc_nonneg q : 0 <= q -> Qtrunc q = Qfloor q.
Proof.
  destruct q as [n d]. unfold Qle, Qtrunc, Qfloor. simpl. intros H.
  apply Z.quot_div_nonneg; lia.
Qed.


(** The remainder of a non-negative value by a positive unit lies in
    [[0, unit)]. *)
Lemma js_rem_nonneg a b :
  0 < b -> 0 <= a ->
  exists rem, js_rem a b = Some rem /\ 0 <= rem /\ rem < b.
Proof.
  intros Hb Ha. unfold js_rem.
  assert (~ b == 0) as Hb0 by lra.
  destruct (Qeq_bool b 0) eqn:E; [apply Qeq_bool_iff in E; lra |].
  eexists. split; [reflexivity |].
  assert (0 <= a / b) as Hq by (apply Qle_shift_div_l; lra).
  rewrite Qtrunc_nonneg by done.
  pose proof (Qfloor_le (a / b)) as H1. pose proof (Qlt_floor (a / b)) as H2.
  rewrite inject_Z_plus in H2.
  pose proof (Qmult_div_r a b Hb0) as Hab.
  apply (Qmult_le_l _ _ b Hb) in H1. apply (Qmult_lt_l _ _ b Hb) in H2.
  rewrite Hab in H1, H2. change (inject_Z 1) with 1 in H2.
  clear Hab Hq. generalize dependent (inject_Z (Qfloor (a / b))).
  intros t H1 H2. split; lra.
Qed.


(** For non-negative values the grid test with zero tolerance accepts
    exactly the multiples of the unit. *)
Lemma isOnGrid_exact_nonneg config v :
  0 < baseUnit (spacing config) ->
  tolerancePercent (spacing config) == 0 ->
  0 <= v ->
  isOnGrid config v = true <->
  exists rem, js_rem v (baseUnit (spacing config)) = Some rem /\ rem == 0.
Proof.
  intros Hb Htol Hv.
  destruct (js_rem_nonneg v _ Hb Hv) as (rem & E & H0 & Hlt).
  unfold isOnGrid. rewrite E. simpl.
  assert (baseUnit (spacing config) * tolerancePercent (spacing config) / 100 == 0)
    as -> by (rewrite Htol; field).
  rewrite orb_true_iff, !Qle_bool_iff. split.
  - intros [H | H]; [| lra]. exists rem. split; [done | lra].
  - intros (rem' & [= <-] & H). left. lra.
Qed.



(** C3, at an input where the code departs from the claim: with
    [baseUnit = 8] and [tolerancePercent = 0] the value [-3] passes the
    grid test, although its remainder by 8 is [-3] in JavaScript (and 5
    as a mathematical modulus), not 0. *)
Theorem isOnGrid_exact_negative_value :
  let config :=
    withSpacing defaultConfig {| baseUnit := 8; tolerancePercent := 0 |} in
  isOnGrid config (-3) = true /\
  js_rem (-3) 8 = Some (-3) /\
  ((-3) mod 8)%Z <> 0%Z.
Proof. by vm_compute. Qed.

(** C4, at an input where the code departs from the claim: under the
    default configuration ([baseUnit = 8]) the value [-3] passes the grid
    test and [-3 + 8] does not. *)
Theorem isOnGrid_not_periodic_negative_value :
  isOnGrid defaultConfig (-3) = true /\
  isOnGrid defaultConfig (-3 + baseUnit (spacing defaultConfig)) = false.
Proof. by vm_compute. Qed.

(* ===================================================================== *)
(** ** Deep merge *)
(* ===================================================================== *)



(** A field whose new value is an array, a string, a number, a boolean
    or [null] is replaced outright. *)
Lemma deepMerge_replaces fields key v :
  isObject v = false ->
  deepMerge (VObj fields) (VObj [(key, v)]) = VObj (obj_set fields key v).
Proof. intros H. simpl. by rewrite H. Qed.

(** A field whose new value is a plain object is merged into the current
    value of the field. *)
Lemma deepMerge_recurses fields key sub current :
  obj_get fields key = Some current ->
  deepMerge (VObj fields) (VObj [(key, VObj sub)]) =
  VObj (obj_set fields key (deepMerge current (VObj sub))).
Proof.
  intros H.
  transitivity
    (VObj (if negb (has_key (VObj fields) key)
           then obj_set fields key (VObj sub)
           else obj_set fields key
                  (deepMerge (member (VObj fields) key) (VObj sub))));
    [reflexivity |].
  unfold has_key, member. rewrite H. by rewrite bool_decide_eq_true_2 by eauto.
Qed.

(** A plain object for a key the target lacks is taken as it is. *)
Lemma deepMerge_adds fields key sub :
  obj_get fields key = None ->
  deepMerge (VObj fields) (VObj [(key, VObj sub)]) =
  VObj (obj_set fields key (VObj sub)).
Proof.
  intros H.
  transitivity
    (VObj (if negb (has_key (VObj fields) key)
           then obj_set fields key (VObj sub)
           else obj_set fields key
                  (deepMerge (member (VObj fields) key) (VObj sub))));
    [reflexivity |].
  unfold has_key. rewrite H. rewrite bool_decide_eq_false_2; [done |].
  by intros [? [=]].
Qed.

(** A pattern object merged onto a pattern object gives the empty
    object: neither has an enumerable property. *)
Lemma deepMerge_patterns current new :
  deepMerge (VRegExp current) (VRegExp new) = VObj [].
Proof. reflexivity. Qed.

(** Whatever the configuration and the new pattern, the update built by
    the frame-pattern field leaves the empty object at
    [naming.patterns.frames]. *)
Lemma deepMerge_frames_pattern (c : StandardsConfig) (r : RegExp) :
  pattern_at (deepMerge (StandardsConfig_value c) (framesPatternUpdate r)) "frames" =
  Got (VObj []).
Proof. reflexivity. Qed.

(** C5, at an input where the code departs from the claim: merging the
    partial configuration [{ naming: { patterns: { frames: /^x$/ } } }]
    onto the default configuration does not put the new pattern at
    [naming.patterns.frames]; the field ends up as the empty object,
    which is neither the new pattern nor the current one. *)
Theorem deepMerge_pattern_not_replaced :
  let merged :=
    deepMerge (StandardsConfig_value defaultConfig)
      (framesPatternUpdate (mkRegExp "^x$" "")) in
  pattern_at merged "frames" = Got (VObj []) /\
  pattern_at merged "frames" <> Got (VRegExp (mkRegExp "^x$" "")) /\
  pattern_at (StandardsConfig_value defaultConfig) "frames" =
    Got (VRegExp (mkRegExp "^[A-Z][a-z]+ - [a-z0-9-_]+$" "")).
Proof. by vm_compute. Qed.

(* ===================================================================== *)
(** ** Export, import, load *)
(* ===================================================================== *)

(** Whatever the configuration, exporting it and updating with the
    parsed export leaves the three literal strings where the patterns
    were. *)
Lemma export_then_update_patterns (c : StandardsConfig) :
  let this := {| config := StandardsConfig_value c; pluginData := EmptyText |} in
  exists parsed,
    JSON_parse (exportCurrentConfig this) = Some parsed /\
    pattern_at (config (updateConfig this parsed)) "frames" =
      Got (VStr (RegExp_toString (Patterns.frames (patterns (naming c))))) /\
    pattern_at (config (updateConfig this parsed)) "components" =
      Got (VStr (RegExp_toString (Patterns.components (patterns (naming c))))) /\
    pattern_at (config (updateConfig this parsed)) "layers" =
      Got (VStr (RegExp_toString (Patterns.layers (patterns (naming c))))).
Proof.
  intros this. eexists. split; [reflexivity |]. repeat split; reflexivity.
Qed.

(** A checker constructed on a document without plugin data holds the
    default configuration. *)
Lemma constructor_without_plugin_data RegExp_new :
  constructor RegExp_new EmptyText = defaultChecker.
Proof. reflexivity. Qed.

(** Saving and loading again, with a host that compiles every pattern,
    gives the default configuration back. *)
Lemma save_then_load_default :
  loadConfigFromDocument (fun pattern flags => Some (mkRegExp pattern flags))
    (pluginData (saveConfigToDocument defaultChecker)) =
  Some (config defaultChecker).
Proof. reflexivity. Qed.

(** C1, at an input where the code departs from the claim: exporting the
    default configuration and updating with the parsed export does not
    reproduce it. The other fields are as before, but the three naming
    patterns are now their literal strings and no longer pattern
    objects. *)
Theorem export_then_update_default :
  exists parsed,
    JSON_parse (exportCurrentConfig defaultChecker) = Some parsed /\
    config (updateConfig defaultChecker parsed) = defaultWithPatternStrings /\
    pattern_at (config (updateConfig defaultChecker parsed)) "frames" =
      Got (VStr "/^[A-Z][a-z]+ - [a-z0-9-_]+$/") /\
    pattern_at (config defaultChecker) "frames" =
      Got (VRegExp (mkRegExp "^[A-Z][a-z]+ - [a-z0-9-_]+$" "")) /\
    config (updateConfig defaultChecker parsed) <> config defaultChecker.
Proof.
  eexists. split; [reflexivity |]. split; [by vm_compute |].
  split; [by vm_compute |]. split; [by vm_compute |].
  intros H. apply (f_equal (fun c => pattern_at c "frames")) in H.
  vm_compute in H. discriminate.
Qed.

(** The pattern fields of the UI reject a text that does not compile: no
    message is posted. *)
Lemma patternFieldChanged_rejects RegExp_new key text :
  RegExp_new text "" = None -> patternFieldChanged RegExp_new key text = None.
Proof. intros H. unfold patternFieldChanged. by rewrite H. Qed.

(** C2, at an input where the code departs from the claim: the manual
    import posts pasted JSON as it is, and the update is applied; the
    text of an unterminated group, which no pattern field would accept,
    becomes the live [naming.patterns.frames]. *)
Theorem manual_import_accepts_bad_pattern :
  exists msg,
    manualImportClicked (JSONText badPatternImport) = Some msg /\
    pattern_at (config (handleConfigMessages defaultChecker msg)) "frames" =
      Got (VStr "(") /\
    config (handleConfigMessages defaultChecker msg) <> config defaultChecker.
Proof.
  eexists. split; [reflexivity |]. split; [reflexivity |].
  intros H. apply (f_equal (fun c => pattern_at c "frames")) in H.
  vm_compute in H. discriminate.
Qed.

(** Loading fails soft on malformed JSON. *)
Lemma load_malformed_json RegExp_new :
  loadConfigFromDocument RegExp_new BadJSON = None.
Proof. reflexivity. Qed.

(** Loading fails soft on a pattern in literal form that does not
    compile. *)
Lemma load_pattern_not_compiling RegExp_new :
  RegExp_new "(" "" = None ->
  loadConfigFromDocument RegExp_new (JSONText uncompilablePatternDocument) = None.
Proof. intros H. vm_compute. by rewrite H. Qed.

(** C6, at an input where the code departs from the claim: for a stored
    document whose pattern strings lack the slashes of the literal form,
    loading does not return "not found"; it returns the document as it
    is, with plain strings where the patterns should be, whatever the
    host's pattern compiler does. *)
Theorem load_keeps_malformed_pattern (RegExp_new : string -> string -> option RegExp) :
  match_pattern_literal "^[A-Z][a-z]+ - [a-z0-9-_]+$" = None /\
  loadConfigFromDocument RegExp_new (JSONText rawPatternsDocument) =
    Some rawPatternsDocument /\
  pattern_at rawPatternsDocument "frames" =
    Got (VStr "^[A-Z][a-z]+ - [a-z0-9-_]+$").
Proof. repeat split; reflexivity. Qed.

(* ===================================================================== *)
(** ** Issues that do not depend on the run *)
(* ===================================================================== *)

Local Open Scope nat_scope.

Lemma issuing_skip P : issuing P (fun run => run).
Proof. by exists []. Qed.

Lemma issuing_report P c m n (step : Run -> Run) :
  P {| category := c; message := m; nodeId := n |} ->
  issuing P step -> issuing P (fun run => report c m n (step run)).
Proof.
  intros Hi (l & Hl & H).
  exists (l ++ [ {| category := c; message := m; nodeId := n |} ]).
  split; [apply Forall_app; by repeat constructor |].
  intros run. destruct (H run) as [Hr Hp]. simpl.
  by rewrite Hr, Hp, addIssues_app.
Qed.

Lemma issuing_then P (first next : Run -> Run) :
  issuing P first -> issuing P next -> issuing P (fun run => next (first run)).
Proof.
  intros (l1 & Hl1 & H1) (l2 & Hl2 & H2). exists (l1 ++ l2).
  split; [by apply Forall_app |]. intros run.
  destruct (H2 (first run)) as [-> ->]. destruct (H1 run) as [-> ->].
  by rewrite addIssues_app.
Qed.

Lemma issuing_fold_left {A} P (step : Run -> A -> Run) (l : list A) :
  (forall a, issuing P (fun run => step run a)) ->
  issuing P (fun run => fold_left step l run).
Proof.
  intros Hstep. induction l as [|a l IH]; simpl; [apply issuing_skip |].
  apply (issuing_then P (fun run => step run a) (fun run => fold_left step l run));
    [apply Hstep | apply IH].
Qed.

Lemma issuing_weaken (P Q : CheckIssue -> Prop) step :
  (forall i, P i -> Q i) -> issuing P step -> issuing Q step.
Proof.
  intros HPQ (l & Hl & H). exists l. split; [| done].
  eapply Forall_impl; eauto.
Qed.

(** Takes a goal [issuing P (fun run => ...)] apart along the
    conditionals, the loops and the calls of [report]. *)
Ltac issuing_solve :=
  repeat first
    [ apply issuing_skip
    | lazymatch goal with
      | |- issuing ?P (fun run => report ?c ?m ?n (@?X run)) =>
          apply (issuing_report P c m n X); [done |]
      | |- issuing ?P (fun run => fold_left ?step ?l (@?X run)) =>
          apply (issuing_then P X (fun run => fold_left step l run));
          [| apply (issuing_fold_left P step l); intros ?; cbv beta zeta]
      end
    | progress cbv beta zeta
    | case_match ].

Section IssuingCheckers.

Variable RegExp_test : RegExp -> string -> bool.
Variable Number_toString : Q -> string.
Variable config : StandardsConfig.

Lemma checkColors_issuing node :
  issuing (issue_of "color" node) (checkColors config node).
Proof. unfold checkColors, checkPaints. issuing_solve. Qed.

Lemma checkOnGrid_issuing value message node :
  issuing (issue_of "spacing" node) (checkOnGrid config value message node).
Proof. unfold checkOnGrid. issuing_solve. Qed.

Lemma checkSpacing_issuing node :
  issuing (issue_of "spacing" node) (checkSpacing Number_toString config node).
Proof.
  unfold checkSpacing.
  repeat case_match; try apply issuing_skip; cbv zeta;
    repeat first
      [ apply issuing_skip
      | lazymatch goal with
        | |- issuing ?P (fun run => checkOnGrid ?c ?v ?m ?n (@?X run)) =>
            apply (issuing_then P X (checkOnGrid c v m n));
            [| apply checkOnGrid_issuing]
        end ].
Qed.

Lemma checkComponents_issuing node :
  issuing (issue_of "components" node) (checkComponents config node).
Proof. unfold checkComponents. issuing_solve. Qed.

Lemma checkNaming_issuing node :
  issuing (issue_of "naming" node) (checkNaming RegExp_test config node).
Proof. unfold checkNaming. issuing_solve. Qed.

Lemma checkAccessibility_issuing node :
  issuing (issue_of "accessibility" node)
    (checkAccessibility Number_toString config node).
Proof. unfold checkAccessibility. issuing_solve. Qed.

End IssuingCheckers.

(* ===================================================================== *)
(** ** What each checker reports *)
(* ===================================================================== *)

Lemma addIssues_length l res :
  length (issues (addIssues l res)) = length (issues res) + length l.
Proof. by rewrite addIssues_issues, length_app. Qed.

Section CheckerReports.

Variable RegExp_test : RegExp -> string -> bool.
Variable Number_toString : Q -> string.
Variable config : StandardsConfig.

Lemma checkPaints_results wording node paints run :
  results (checkPaints config wording node paints run) =
    addIssues (paintIssues config wording node paints) (results run).
Proof.
  unfold checkPaints, paintIssues. destruct paints as [paints|]; [| done].
  simpl. revert run. induction paints as [|paint paints IH]; intros run; [done |].
  simpl. rewrite IH. unfold nonStandardPaint.
  destruct (paint_type paint); [| done].
  destruct (visible paint); [| done]. simpl.
  by destruct (isColorAllowed config _).
Qed.

(** X1. [checkColors] reports one issue for each visible solid paint whose
    colour is not in the palette, the fills first and then the strokes,
    each list in its order; it reports nothing else. *)
Theorem checkColors_reports_each_nonstandard_paint node run :
  issues (results (checkColors config node run)) =
    issues (results run) ++
    paintIssues config "Non-standard color " node (fills node) ++
    paintIssues config "Non-standard stroke color " node (strokes node).
Proof.
  unfold checkColors. rewrite !checkPaints_results, !addIssues_issues.
  by rewrite app_assoc.
Qed.

Lemma checkTypography_results node run :
  results (checkTypography config node run) =
    addIssues (typographyIssues config node) (results run) /\
  pending (checkTypography config node run) = pending run ++ styleLookups node.
Proof.
  unfold checkTypography, typographyIssues, styleLookups.
  repeat case_match; simplify_eq; simpl; rewrite ?app_nil_r; done.
Qed.

Lemma checkOnGrid_length value message node run :
  length (issues (results (checkOnGrid config value message node run))) =
  length (issues (results run)) + (if isOnGrid config value then 0 else 1).
Proof.
  unfold checkOnGrid. destruct (isOnGrid config value); simpl; [lia |].
  by rewrite length_app.
Qed.

(** X2. [checkSpacing] reports exactly one issue for each tested value
    that is off the grid: the position and size of a frame, group,
    component or instance, and the four paddings of a frame with an
    automatic layout; so at most eight issues for a node, and none for a
    node of another type. *)
Theorem checkSpacing_reports_each_off_grid_value node run :
  length (issues (results (checkSpacing Number_toString config node run))) =
    length (issues (results run)) +
    length (List.filter (fun value => negb (isOnGrid config value)) (gridValues node)) /\
  length (gridValues node) <= 8.
Proof.
  assert (forall value rest,
    length (List.filter (fun value => negb (isOnGrid config value)) (value :: rest)) =
    (if isOnGrid config value then 0 else 1) +
    length (List.filter (fun value => negb (isOnGrid config value)) rest)) as Hcount.
  { intros value rest. simpl. by destruct (isOnGrid config value). }
  unfold checkSpacing, gridValues. split.
  - repeat case_match; simplify_eq; cbv zeta;
      rewrite ?checkOnGrid_length; cbn [app]; rewrite ?Hcount; simpl; lia.
  - repeat case_match; simpl; lia.
Qed.

(** [checkNaming] tests the name of a node against one pattern only,
    chosen by the type of the node (frames; components and instances;
    every other layer), and reports one issue exactly when that pattern
    does not match. *)
Lemma checkNaming_tests_one_pattern node run :
  results (checkNaming RegExp_test config node run) =
  if RegExp_test (namingPattern config (type node)) (name node)
  then results run
  else addIssue (results run) "naming"
         (namingWord (type node) +:+ dq +:+ name node +:+ dq +:+
          " doesn't follow naming convention")
         (id node).
Proof.
  unfold checkNaming, namingPattern, namingWord.
  destruct (type node); simpl; by destruct (RegExp_test _ _).
Qed.

(** X3. [checkAccessibility] never reports the contrast of a text: its
    only issue is the one for an interactive element (a name holding
    button, link, input, toggle, checkbox or radio) whose width or height
    is below the minimum size. *)
Theorem checkAccessibility_reports_touch_size_only node run :
  results (checkAccessibility Number_toString config node run) =
  match geometry node with
  | Some geo =>
      if tooSmallForTouch config node
      then addIssue (results run) "accessibility"
             ("Interactive element " +:+ dq +:+ name node +:+ dq +:+ " (" +:+
              Number_toString (width geo) +:+ "x" +:+
              Number_toString (height geo) +:+
              ") is too small for touch targets")
             (id node)
      else results run
  | None => results run
  end.
Proof.
  unfold checkAccessibility, tooSmallForTouch, hasAdequateContrast.
  assert (forall textColor : string,
            negb (String.eqb textColor "") && negb true = false) as Hdead
    by (intros; apply andb_false_r).
  destruct (isInteractiveElement node); simpl.
  - destruct (geometry node) as [[gx gy gw gh]|]; simpl;
      repeat case_match; simplify_eq; rewrite ?Hdead in *; done.
  - repeat case_match; simplify_eq; rewrite ?Hdead in *; done.
Qed.

Lemma hasComponent_guard node name :
  match children node with
  | Some _ => hasComponentNamed node name
  | None => false
  end = hasComponentNamed node name.
Proof. by destruct node as [? ? ? ? ? ? ? ? ? []]. Qed.

(** X4. [checkComponents] reports one issue for each required component
    of the frame's type that no node below the frame is named after, in
    the order of the configuration, and then one issue when the node is
    named after a component that must be an instance and is neither an
    instance nor a component; it reports nothing else. *)
Theorem checkComponents_reports_missing_and_raw node run :
  issues (results (checkComponents config node run)) =
    issues (results run) ++
    map (fun required =>
           {| category := "components";
              message := name node +:+ " is missing required component: " +:+ required;
              nodeId := id node |})
      (missingComponents config node) ++
    (if shouldBeInstance config node
     then [ {| category := "components";
               message := name node +:+ " should be a component instance";
               nodeId := id node |} ]
     else []).
Proof.
  assert (forall required run',
    issues (results
      (fold_left
         (fun run requiredComponent =>
            let hasComponent :=
              match children node with
              | Some _ => hasComponentNamed node requiredComponent
              | None => false
              end in
            if negb hasComponent then
              report "components"
                (name node +:+ " is missing required component: " +:+
                 requiredComponent)
                (id node) run
            else run)
         required run')) =
    issues (results run') ++
    map (fun required =>
           {| category := "components";
              message := name node +:+ " is missing required component: " +:+ required;
              nodeId := id node |})
      (List.filter (fun name => negb (hasComponentNamed node name)) required))
    as Hloop.
  { induction required as [|required rest IH]; intros run'; simpl;
      [by rewrite app_nil_r |].
    rewrite IH, hasComponent_guard.
    destruct (hasComponentNamed node required); simpl; [done |].
    by rewrite <- app_assoc. }
  unfold checkComponents, missingComponents, shouldBeInstance. cbv zeta.
  destruct (negb (String.eqb (getComponentName (name node)) "") &&
            bool_decide (getComponentName (name node) ∈
                           mustBeInstances (components config))); simpl.
  - destruct (type node); simpl; rewrite ?app_nil_r; try done;
      repeat case_match; simpl; rewrite ?Hloop, ?app_nil_r, <- ?app_assoc; done.
  - destruct (type node); simpl; rewrite ?app_nil_r; try done;
      repeat case_match; simpl; rewrite ?Hloop, ?app_nil_r; done.
Qed.

End CheckerReports.

(* ===================================================================== *)
(** ** The issues of a tree, node by node *)
(* ===================================================================== *)

Section TreeIssues.

Variable RegExp_test : RegExp -> string -> bool.
Variable Number_toString : Q -> string.
Variable config : StandardsConfig.

Lemma issue_of_at c node i : c ∈ categories -> issue_of c node i -> issue_at node i.
Proof. intros Hc [<- Hid]. by split. Qed.

(** The six checkers of a node append issues that do not depend on the
    run, all of them about this node, and start the lookups of the node. *)
Lemma checkNode_issuing node :
  exists l, Forall (issue_at node) l /\
    forall run,
      results (checkNode RegExp_test Number_toString config node run) =
        addIssues l (results run) /\
      pending (checkNode RegExp_test Number_toString config node run) =
        pending run ++ styleLookups node.
Proof.
  destruct (checkColors_issuing config node) as (l1 & F1 & H1).
  destruct (checkSpacing_issuing Number_toString config node) as (l3 & F3 & H3).
  destruct (checkComponents_issuing config node) as (l4 & F4 & H4).
  destruct (checkNaming_issuing RegExp_test config node) as (l5 & F5 & H5).
  destruct (checkAccessibility_issuing Number_toString config node)
    as (l6 & F6 & H6).
  exists (l1 ++ typographyIssues config node ++ l3 ++ l4 ++ l5 ++ l6). split.
  - repeat apply Forall_app_2.
    + eapply Forall_impl; [exact F1 |]. intros i. apply issue_of_at, list_elem_of_In. simpl. tauto.
    + unfold typographyIssues, issue_at, categories, fontIssue, missingStyleIssue.
      repeat case_match; repeat constructor; simpl;
        apply list_elem_of_In; simpl; tauto.
    + eapply Forall_impl; [exact F3 |]. intros i. apply issue_of_at, list_elem_of_In. simpl. tauto.
    + eapply Forall_impl; [exact F4 |]. intros i. apply issue_of_at, list_elem_of_In. simpl. tauto.
    + eapply Forall_impl; [exact F5 |]. intros i. apply issue_of_at, list_elem_of_In. simpl. tauto.
    + eapply Forall_impl; [exact F6 |]. intros i. apply issue_of_at, list_elem_of_In. simpl. tauto.
  - intros run. unfold checkNode. split.
    + rewrite (proj1 (H6 _)), (proj1 (H5 _)), (proj1 (H4 _)), (proj1 (H3 _)),
        (proj1 (checkTypography_results _ _ _)), (proj1 (H1 _)).
      by rewrite !addIssues_app.
    + by rewrite (proj2 (H6 _)), (proj2 (H5 _)), (proj2 (H4 _)), (proj2 (H3 _)),
        (proj2 (checkTypography_results _ _ _)), (proj2 (H1 _)).
Qed.

(** The issues of a shallow check are the issues of the node's own
    checks, whatever run they are appended to. *)
Lemma checkNode_results node run :
  results (checkNode RegExp_test Number_toString config node run) =
    addIssues
      (issues (runAllChecks RegExp_test Number_toString config node false))
      (results run) /\
  pending (checkNode RegExp_test Number_toString config node run) =
    pending run ++ styleLookups node.
Proof.
  destruct (checkNode_issuing node) as (l & _ & H).
  unfold runAllChecks, runAllChecks_run. rewrite processNode_unfold. cbv zeta.
  rewrite (proj1 (H (countNode _))), addIssues_issues. simpl. apply H.
Qed.

Lemma visits_results nodes : forall run,
  results
    (fold_left
       (fun run visited_node =>
          checkNode RegExp_test Number_toString config visited_node (countNode run))
       nodes run) =
    addIssues
      (flat_map
         (fun visited_node =>
            issues (runAllChecks RegExp_test Number_toString config visited_node false))
         nodes)
      (visited (length nodes) (results run)) /\
  pending
    (fold_left
       (fun run visited_node =>
          checkNode RegExp_test Number_toString config visited_node (countNode run))
       nodes run) =
    pending run ++ flat_map styleLookups nodes.
Proof.
  induction nodes as [|n nodes IH]; intros run; simpl.
  - split; [by destruct run as [[? ? []] ?] | by rewrite app_nil_r].
  - rewrite (proj1 (IH _)), (proj2 (IH _)),
      (proj1 (checkNode_results n _)), (proj2 (checkNode_results n _)).
    simpl. split.
    + rewrite addIssues_app, <- addIssues_visited. do 2 f_equal.
      unfold visited. simpl. do 2 f_equal. lia.
    + by rewrite <- app_assoc.
Qed.


(** X6. Every issue of an evaluation carries the identifier of a node the
    evaluation visited (the given node for a shallow check, a node of its
    subtree for a deep check), and its category is one of the six. *)
Theorem issues_refer_to_visited_nodes node isDeepCheck i :
  i ∈ issues (runAllChecks RegExp_test Number_toString config node isDeepCheck) ->
  exists visited_node,
    visited_node ∈ visitedNodes isDeepCheck node /\
    nodeId i = id visited_node /\
    category i ∈ categories.
Proof.
  intros Hi.
  assert (i ∈ flat_map
            (fun visited_node =>
               issues (runAllChecks RegExp_test Number_toString config
                         visited_node false))
            (visitedNodes isDeepCheck node)) as Hflat.
  { revert Hi. unfold runAllChecks at 1. unfold runAllChecks_run.
    rewrite processNode_preorder, (proj1 (visits_results _ _)).
    by rewrite addIssues_issues. }
  apply list_elem_of_In, in_flat_map in Hflat as (n & Hn & Hin).
  exists n. split; [by apply list_elem_of_In |].
  destruct (checkNode_issuing n) as (l & Fl & H).
  revert Hin. unfold runAllChecks, runAllChecks_run.
  rewrite processNode_unfold. cbv zeta.
  rewrite (proj1 (H (countNode _))), addIssues_issues. simpl.
  intros Hin. apply list_elem_of_In in Hin.
  rewrite Forall_forall in Fl. destruct (Fl i Hin) as [Hc Hid]. by split.
Qed.


Lemma shallow_issues_at node :
  Forall (issue_at node)
    (issues (runAllChecks RegExp_test Number_toString config node false)).
Proof.
  destruct (checkNode_issuing node) as (l & Fl & H).
  unfold runAllChecks, runAllChecks_run.
  rewrite processNode_unfold. cbv zeta.
  by rewrite (proj1 (H (countNode _))), addIssues_issues.
Qed.



End TreeIssues.

(** X8. The callbacks of settled style lookups only append to the results
    they run on: the issues returned earlier keep their places, every
    added issue is a typography issue, and each lookup adds at most
    one. *)
Theorem settled_lookups_append_typography_issues config settled res :
  exists l,
    issues (settleAll config settled res) = issues res ++ l /\
    Forall (of_category "typography") l /\
    length l <= length settled.
Proof.
  revert res. induction settled as [|[lookup outcome] settled IH]; intros res.
  - exists []. by rewrite app_nil_r.
  - simpl. destruct (IH (settleLookup config lookup outcome res)) as (l & -> & Fl & Hl).
    unfold settleLookup. repeat case_match; simpl.
    all: try (exists l; split; [done | split; [done | lia]]).
    all: eexists (_ :: l); rewrite <- app_assoc; split; [reflexivity |];
      split; [by constructor | simpl; lia].
Qed.

(* ===================================================================== *)
(** ** The helper functions of the checkers *)
(* ===================================================================== *)

Lemma map_chars_app f s1 s2 :
  map_chars f (s1 +:+ s2) = map_chars f s1 +:+ map_chars f s2.
Proof. induction s1 as [|c s1 IH]; simpl; [done | by rewrite IH]. Qed.

Lemma Math_round_channel (value : Q) :
  (0 <= value)%Q -> (value <= 1)%Q ->
  (0 <= Math_round (value * 255)%Q <= 255)%Z.
Proof.
  intros H0 H1. unfold Math_round. split.
  - apply (Qfloor_resp_le 0%Q). lra.
  - apply (Qfloor_resp_le _ (511 # 2)%Q). lra.
Qed.

(** The two digits of a channel, for each of its 256 values. *)
Lemma channel_digits (n : Z) :
  (0 <= n <= 255)%Z ->
  let hex := toString16 n in
  exists c1 c2,
    toUpperCase (if String.length hex =? 1 then "0" +:+ hex else hex) =
      String c1 (String c2 EmptyString) /\
    is_hex_digit c1 = true /\ is_hex_digit c2 = true.
Proof.
  intros Hn.
  set (ok := fun k : nat =>
    let hex := toString16 (Z.of_nat k) in
    match toUpperCase (if String.length hex =? 1 then "0" +:+ hex else hex) with
    | String c1 (String c2 EmptyString) => is_hex_digit c1 && is_hex_digit c2
    | _ => false
    end).
  assert (forallb ok (seq 0 256) = true) as Hall by (vm_compute; reflexivity).
  rewrite forallb_forall in Hall.
  specialize (Hall (Z.to_nat n)).
  assert (In (Z.to_nat n) (seq 0 256)) as Hin by (apply in_seq; lia).
  apply Hall in Hin. unfold ok in Hin. rewrite Z2Nat.id in Hin by lia.
  cbv zeta.
  destruct (toUpperCase _) as [|c1 [|c2 [|c3 rest]]]; try done.
  apply andb_true_iff in Hin as [H1 H2]. by exists c1, c2.
Qed.

Lemma hex_digit_plain c :
  is_hex_digit c = true -> upper_char c = c /\ Ascii.is_space c = false.
Proof. destruct c as [[] [] [] [] [] [] [] []]; by vm_compute. Qed.

Lemma is_hex_color_typed color :
  is_hex_color color = true -> toUpperCase (trim color) = color.
Proof.
  unfold is_hex_color.
  destruct color as [|c digits]; [done |].
  destruct (Ascii.eqb_spec c "#") as [-> | Hne];
    [| by destruct c as [[] [] [] [] [] [] [] []]].
  intros [Hlen Hdigits]%andb_true_iff. apply Nat.eqb_eq in Hlen.
  destruct digits as [|d1 [|d2 [|d3 [|d4 [|d5 [|d6 [|]]]]]]]; try done.
  cbn [all_chars] in Hdigits.
  repeat (apply andb_true_iff in Hdigits as [?%hex_digit_plain Hdigits]).
  destruct_and!.
  unfold trim. cbn [trim_start]. change (Ascii.is_space "#") with false.
  cbv iota. unfold String.rev. cbn [String.rev_app trim_start].
  repeat match goal with H : Ascii.is_space _ = false |- _ => rewrite H end.
  cbn [String.rev_app]. unfold toUpperCase. cbn [map_chars].
  change (upper_char "#") with "#"%char. congruence.
Qed.

(** X9. For channels between 0 and 1, [rgbToHex] gives a hash sign
    followed by exactly six upper-case hexadecimal digits: a colour of
    the form the add-colour field of the UI accepts, and which the
    field's trimming and upper-casing leave as it is. *)
Theorem rgbToHex_is_hex_color (r g b : Q) :
  (0 <= r)%Q -> (r <= 1)%Q -> (0 <= g)%Q -> (g <= 1)%Q ->
  (0 <= b)%Q -> (b <= 1)%Q ->
  is_hex_color (rgbToHex r g b) = true /\
  String.length (rgbToHex r g b) = 7 /\
  toUpperCase (trim (rgbToHex r g b)) = rgbToHex r g b.
Proof.
  intros Hr0 Hr1 Hg0 Hg1 Hb0 Hb1.
  destruct (channel_digits _ (Math_round_channel r Hr0 Hr1))
    as (r1 & r2 & Er & Hr & Hr').
  destruct (channel_digits _ (Math_round_channel g Hg0 Hg1))
    as (g1 & g2 & Eg & Hg & Hg').
  destruct (channel_digits _ (Math_round_channel b Hb0 Hb1))
    as (b1 & b2 & Eb & Hb & Hb').
  assert (is_hex_color (rgbToHex r g b) = true /\
          String.length (rgbToHex r g b) = 7) as [Hhex Hlen].
  { unfold rgbToHex, toUpperCase in *. rewrite !map_chars_app.
    unfold toHex. cbv zeta in Er, Eg, Eb. rewrite Er, Eg, Eb.
    split; [| done]. simpl. unfold is_hex_color. simpl.
    by rewrite Hr, Hr', Hg, Hg', Hb, Hb'. }
  auto using is_hex_color_typed.
Qed.

Lemma rgbToHex_is_hex_color_witness :
  is_hex_color (rgbToHex (26 # 255) (115 # 255) (232 # 255)) = true /\
  String.length (rgbToHex (26 # 255) (115 # 255) (232 # 255)) = 7 /\
  toUpperCase (trim (rgbToHex (26 # 255) (115 # 255) (232 # 255))) =
    rgbToHex (26 # 255) (115 # 255) (232 # 255).
Proof. apply rgbToHex_is_hex_color; by vm_compute. Defined.

Lemma hasComponentNamed_unfold node componentName :
  hasComponentNamed node componentName =
  match children node with
  | None => false
  | Some node_children =>
      existsb
        (fun child =>
           includes (name child) componentName ||
           match children child with
           | Some _ => hasComponentNamed child componentName
           | None => false
           end)
        node_children
  end.
Proof. by destruct node. Qed.

Lemma existsb_flat_map {A B} (f : B -> bool) (g : A -> list B) (l : list A) :
  existsb f (flat_map g l) = existsb (fun a => existsb f (g a)) l.
Proof.
  induction l as [|a l IH]; simpl; [done |]. by rewrite existsb_app, IH.
Qed.

(** X10. [hasComponentNamed] holds exactly when the name of some node
    below the given node (a child, or a node further down) contains the
    component name; the name of the given node itself does not count, and
    a node without children has none. *)
Theorem hasComponentNamed_searches_descendants node componentName :
  hasComponentNamed node componentName =
  existsb (fun below => includes (name below) componentName) (descendants node).
Proof.
  induction node as [node IH] using Node_children_ind.
  rewrite hasComponentNamed_unfold. unfold descendants.
  rewrite preorder_unfold. simpl.
  destruct (children node) as [cs|]; [| done].
  specialize (IH cs eq_refl). rewrite existsb_flat_map.
  induction IH as [|child cs Hchild _ IHcs]; simpl; [done |].
  rewrite IHcs. f_equal. rewrite preorder_unfold. simpl. f_equal.
  rewrite hasComponent_guard, Hchild. unfold descendants.
  by rewrite preorder_unfold.
Qed.






Lemma no_slash_app s1 s2 : no_slash (s1 +:+ s2) = no_slash s1 && no_slash s2.
Proof.
  unfold no_slash. induction s1 as [|c s1 IH]; simpl; [done |].
  by rewrite IH, andb_assoc.
Qed.

Lemma no_slash_rev_app s1 s2 :
  no_slash (String.rev_app s1 s2) = no_slash s1 && no_slash s2.
Proof.
  revert s2. induction s1 as [|c s1 IH]; intros s2; simpl; [done |].
  rewrite IH. unfold no_slash. simpl.
  destruct (negb (Ascii.eqb c "/")), (all_chars _ s1); simpl; try done.
Qed.

Lemma no_slash_rev s : no_slash (String.rev s) = no_slash s.
Proof. unfold String.rev. rewrite no_slash_rev_app. simpl. apply andb_true_r. Qed.

Lemma no_slash_trim_start s : no_slash s = true -> no_slash (trim_start s) = true.
Proof.
  unfold no_slash. induction s as [|c s IH]; simpl; [done |].
  intros [Hc Hs]%andb_true_iff. destruct (Ascii.is_space c); [by apply IH |].
  simpl. by rewrite Hc, Hs.
Qed.

Lemma no_slash_trim s : no_slash s = true -> no_slash (trim s) = true.
Proof.
  intros H. unfold trim. rewrite no_slash_rev. apply no_slash_trim_start.
  rewrite no_slash_rev. by apply no_slash_trim_start.
Qed.

Lemma after_last_slash_None s : after_last_slash s = None <-> no_slash s = true.
Proof.
  unfold no_slash. induction s as [|c s IH]; simpl; [done |].
  destruct (after_last_slash s) as [part|].
  - split; [done |]. intros [_ Hs]%andb_true_iff. by apply IH in Hs.
  - destruct (Ascii.eqb c "/"); simpl; [done |]. split; [| done].
    intros _. by apply IH.
Qed.

Lemma after_last_slash_Some s part :
  after_last_slash s = Some part -> no_slash part = true.
Proof.
  induction s as [|c s IH]; simpl; [done |].
  destruct (after_last_slash s) as [part'|] eqn:E.
  - intros [= <-]. by apply IH.
  - destruct (Ascii.eqb c "/"); [| done]. intros [= <-].
    by apply after_last_slash_None.
Qed.

(** X12. The component name of a layer name never holds a slash: it is
    the trimmed part after the last slash, or the whole name when the
    name has no slash. Taking the component name twice therefore gives
    the same as taking it once. *)
Theorem getComponentName_has_no_slash (name : string) :
  no_slash (getComponentName name) = true /\
  getComponentName (getComponentName name) = getComponentName name.
Proof.
  assert (no_slash (getComponentName name) = true) as H.
  { unfold getComponentName. destruct (after_last_slash name) as [last|] eqn:E.
    - by apply no_slash_trim, (after_last_slash_Some name).
    - by apply after_last_slash_None. }
  split; [exact H |].
  apply after_last_slash_None in H. unfold getComponentName at 1. by rewrite H.
Qed.

(* ===================================================================== *)
(** ** The grid test and its tolerance *)
(* ===================================================================== *)

Local Open Scope Q_scope.



(** X14. Raising the tolerance never turns an accepted value into a
    rejected one: with a positive base unit, a value on the grid under
    one tolerance is on the grid under every larger tolerance. *)
Theorem isOnGrid_monotone_in_tolerance config percent percent' v :
  0 < baseUnit (spacing config) ->
  percent <= percent' ->
  isOnGrid (withTolerancePercent config percent) v = true ->
  isOnGrid (withTolerancePercent config percent') v = true.
Proof.
  intros Hb Hle. unfold isOnGrid, withTolerancePercent. simpl.
  assert (baseUnit (spacing config) * percent / 100 <=
          baseUnit (spacing config) * percent' / 100) as Ht.
  { apply Qmult_le_compat_r; [| done]. by apply Qmult_le_l. }
  destruct (js_rem v (baseUnit (spacing config))) as [rem|]; simpl; [| done].
  rewrite !orb_true_iff, !Qle_bool_iff.
  generalize dependent (baseUnit (spacing config) * percent / 100).
  generalize dependent (baseUnit (spacing config) * percent' / 100).
  intros tol' tol Ht. intros [H | H]; [left | right]; lra.
Qed.

Lemma isOnGrid_monotone_in_tolerance_witness :
  isOnGrid (withTolerancePercent defaultConfig 10) (79 # 10) = true.
Proof.
  apply (isOnGrid_monotone_in_tolerance defaultConfig 5 10); by vm_compute.
Defined.

(** X15. With a positive base unit and zero tolerance, the grid test
    accepts a non-negative value exactly when the value is a whole
    multiple of the base unit. *)
Theorem isOnGrid_exact_multiples config v :
  0 < baseUnit (spacing config) ->
  tolerancePercent (spacing config) == 0 ->
  0 <= v ->
  isOnGrid config v = true <->
  exists k : Z, v == inject_Z k * baseUnit (spacing config).
Proof.
  intros Hb Htol Hv. rewrite isOnGrid_exact_nonneg by done.
  unfold js_rem.
  assert (~ baseUnit (spacing config) == 0) as Hb0 by lra.
  destruct (Qeq_bool (baseUnit (spacing config)) 0) eqn:E;
    [apply Qeq_bool_iff in E; lra |].
  split.
  - intros (rem & [= <-] & H).
    exists (Qtrunc (v / baseUnit (spacing config))).
    rewrite (Qmult_comm (inject_Z _)).
    generalize dependent
      (baseUnit (spacing config) * inject_Z (Qtrunc (v / baseUnit (spacing config)))).
    intros; lra.
  - intros (k & Hk). eexists. split; [reflexivity |].
    assert (v / baseUnit (spacing config) == inject_Z k) as Hq
      by (rewrite Hk; field; done).
    assert (0 <= v / baseUnit (spacing config)) as Hq0
      by (apply Qle_shift_div_l; lra).
    rewrite Qtrunc_nonneg by done.
    rewrite (Qfloor_comp _ _ Hq), Qfloor_Z, Hk. ring.
Qed.

Lemma isOnGrid_exact_multiples_witness :
  isOnGrid (withTolerancePercent defaultConfig 0) 16 = true <->
  exists k : Z, 16 == inject_Z k * 8.
Proof.
  apply (isOnGrid_exact_multiples (withTolerancePercent defaultConfig 0) 16);
    by vm_compute.
Defined.




(* ===================================================================== *)
(** ** Deep merge, field by field *)
(* ===================================================================== *)












(* ===================================================================== *)
(** ** Pattern literals *)
(* ===================================================================== *)

Lemma append_String c s t : String c s +:+ t = String c (s +:+ t).
Proof. reflexivity. Qed.

Lemma append_nil_l t : "" +:+ t = t.
Proof. reflexivity. Qed.

Lemma append_nil_r s : s +:+ "" = s.
Proof.
  induction s as [|c s IH]; [done |]. by rewrite append_String, IH.
Qed.

Lemma append_assoc s1 s2 s3 : (s1 +:+ s2) +:+ s3 = s1 +:+ (s2 +:+ s3).
Proof.
  induction s1 as [|c s1 IH]; [done |]. by rewrite !append_String, IH.
Qed.

Lemma rev_app_append s1 s2 : String.rev_app s1 s2 = String.rev s1 +:+ s2.
Proof.
  unfold String.rev. revert s2.
  induction s1 as [|c s1 IH]; intros s2; [done |]. cbn [String.rev_app].
  rewrite IH, (IH (String c "")). by rewrite append_assoc.
Qed.

Lemma rev_String c s : String.rev (String c s) = String.rev s +:+ String c "".
Proof. unfold String.rev at 1. cbn [String.rev_app]. apply rev_app_append. Qed.

Lemma rev_append s1 s2 : String.rev (s1 +:+ s2) = String.rev s2 +:+ String.rev s1.
Proof.
  induction s1 as [|c s1 IH].
  - by rewrite append_nil_l, append_nil_r.
  - by rewrite append_String, !rev_String, IH, append_assoc.
Qed.

Lemma rev_involutive s : String.rev (String.rev s) = s.
Proof.
  induction s as [|c s IH]; [done |]. by rewrite rev_String, rev_append, IH.
Qed.

Lemma all_chars_app p s1 s2 :
  all_chars p (s1 +:+ s2) = all_chars p s1 && all_chars p s2.
Proof.
  induction s1 as [|c s1 IH]; [done |].
  rewrite append_String. cbn [all_chars]. by rewrite IH, andb_assoc.
Qed.

Lemma all_chars_rev p s : all_chars p (String.rev s) = all_chars p s.
Proof.
  induction s as [|c s IH]; [done |].
  rewrite rev_String, all_chars_app, IH. cbn [all_chars].
  rewrite andb_true_r. apply andb_comm.
Qed.

Lemma span_flags_run fl rest :
  all_chars is_flag fl = true ->
  span_flags (fl +:+ String "/" rest) = (fl, String "/" rest).
Proof.
  induction fl as [|c fl IH]; [done |].
  rewrite append_String. cbn [all_chars span_flags].
  intros [Hc Hfl]%andb_true_iff. by rewrite Hc, IH.
Qed.



Lemma match_pattern_literal_toString p :
  literal_ok p = true ->
  match_pattern_literal (RegExp_toString p) = Some (source p, flags p).
Proof.
  unfold literal_ok, RegExp_toString.
  intros [Hpattern Hflags]%andb_true_iff.
  rewrite append_String, append_nil_l. cbn [match_pattern_literal].
  rewrite rev_append, rev_append.
  change (String.rev "/") with "/"%string.
  rewrite append_assoc, append_String, append_nil_l.
  rewrite span_flags_run by by rewrite all_chars_rev.
  by rewrite all_chars_rev, Hpattern, !rev_involutive.
Qed.


Lemma json_of_strings l : map json_of (map VStr l) = map VStr l.
Proof. induction l as [|s l IH]; simpl; [done | by rewrite IH]. Qed.

Lemma json_of_required (l : list (string * list string)) :
  map (fun kv : string * value => (kv.1, json_of kv.2))
      (map (fun kv : string * list string => (kv.1, strings_value kv.2)) l) =
  map (fun kv : string * list string => (kv.1, strings_value kv.2)) l.
Proof.
  induction l as [|[k v] l IH]; simpl; [done |].
  by rewrite IH, json_of_strings.
Qed.

Lemma revive_pattern_literal RegExp_new key parsedConfig p :
  pattern_at parsedConfig key = Got (VStr (RegExp_toString p)) ->
  literal_ok p = true ->
  RegExp_new (source p) (flags p) = Some p ->
  revive_pattern RegExp_new key parsedConfig =
  Some (set_pattern parsedConfig key (VRegExp p)).
Proof.
  unfold pattern_at, revive_pattern. intros -> Hok Hnew.
  by rewrite (match_pattern_literal_toString _ Hok), Hnew.
Qed.

(** X20. Saving a typed configuration and loading it again gives the
    configuration back, pattern objects included, whenever each of its
    three naming patterns has no line terminator in its source, flags
    among [gimuy], and is compiled again by the host from its source
    and flags. The stored text before the save plays no part. *)
Theorem save_then_load_typed RegExp_new (c : StandardsConfig) (stored : Text) :
  (forall p, In p (namingPatterns c) ->
     literal_ok p = true /\ RegExp_new (source p) (flags p) = Some p) ->
  loadConfigFromDocument RegExp_new
    (pluginData (saveConfigToDocument
                   {| config := StandardsConfig_value c; pluginData := stored |})) =
  Some (StandardsConfig_value c).
Proof.
  intros Hpatterns.
  destruct (Hpatterns (Patterns.frames (patterns (naming c)))) as [Hf1 Hf2];
    [simpl; tauto |].
  destruct (Hpatterns (Patterns.components (patterns (naming c)))) as [Hc1 Hc2];
    [simpl; tauto |].
  destruct (Hpatterns (Patterns.layers (patterns (naming c)))) as [Hl1 Hl2];
    [simpl; tauto |].
  unfold saveConfigToDocument, patterns_as_strings, JSON_stringify.
  simpl. rewrite !json_of_strings, !json_of_required.
  erewrite (revive_pattern_literal _ "frames") by (reflexivity || eassumption).
  simpl.
  erewrite (revive_pattern_literal _ "components") by (reflexivity || eassumption).
  simpl.
  erewrite (revive_pattern_literal _ "layers") by (reflexivity || eassumption).
  reflexivity.
Qed.

Lemma save_then_load_typed_witness :
  loadConfigFromDocument (fun pattern flagsStr => Some (mkRegExp pattern flagsStr))
    (pluginData (saveConfigToDocument
                   {| config := StandardsConfig_value defaultConfig;
                      pluginData := BadJSON |})) =
  Some (StandardsConfig_value defaultConfig).
Proof.
  apply (save_then_load_typed _ defaultConfig BadJSON).
  intros p Hp. simpl in Hp.
  destruct Hp as [<- | [<- | [<- | []]]]; split; reflexivity.
Defined.

(* ===================================================================== *)
(** ** Configurations without pattern objects *)
(* ===================================================================== *)












(* ===================================================================== *)
(** ** The colour list of the UI script *)
(* ===================================================================== *)






(* ===================================================================== *)
(** ** The handlers of [main] *)
(* ===================================================================== *)

Section HandlerProperties.

Variable RegExp_test : RegExp -> string -> bool.
Variable Number_toString : Q -> string.
Variable config : StandardsConfig.


(** X25. A node marked ready for development is not checked again when
    it is selected: after a ready-for-development check that passed,
    selecting the node with this identifier alone only shows the
    notification with the time of the mark, whatever the node has
    become since and whatever the configuration is by then. *)
Theorem marked_node_is_not_checked_on_selection
    (now : string) (doc : Document) (node : Node) (others : list Node)
    (edited : Node) (later : StandardsConfig) :
  selection doc = node :: others ->
  passed (runAllChecks RegExp_test Number_toString config node true) = true ->
  id edited = id node ->
  now <> EmptyString ->
  let marked := (onCheckReadyForDev RegExp_test Number_toString config now doc).1 in
  onSelectionChange RegExp_test Number_toString later
    {| selection := [edited];
       currentPage := currentPage doc;
       nodeData := nodeData marked |} =
  [NotifyAlreadyReady (Some now)].
Proof.
  intros Hselection Hpassed Hid Hnow marked.
  subst marked. unfold onCheckReadyForDev. rewrite Hselection, Hpassed.
  unfold onSelectionChange, getPluginData, setPluginData.
  cbn [selection nodeData fst]. rewrite Hid.
  rewrite lookup_insert_ne by congruence. rewrite !lookup_insert_eq.
  cbn [default]. rewrite String.eqb_refl. cbn [truthy].
  destruct now; [done | done].
Qed.

(** X26. On a change of selection to a single node that is not marked
    ready, the handler shows nothing when the shallow check of the node
    finds no issue; otherwise it shows the results of this shallow check
    together with a notification of its first issue, and this issue is
    about the selected node. With no node or several nodes selected it
    shows nothing. *)
Theorem selection_change_reports_the_selected_node (doc : Document) :
  let out := onSelectionChange RegExp_test Number_toString config doc in
  match selection doc with
  | [node] =>
      let quick := runAllChecks RegExp_test Number_toString config node false in
      if String.eqb (getPluginData doc node "readyForDev") "true" then
        exists timestamp, out = [NotifyAlreadyReady timestamp]
      else
        match issues quick with
        | [] => out = []
        | first :: _ =>
            out = [ShowResults quick; notifyIssue first] /\
            nodeId first = id node
        end
  | _ => out = []
  end.
Proof.
  intros out. unfold onSelectionChange in out.
  destruct (selection doc) as [|node [|]]; try done.
  cbv zeta. subst out. case_match; [by eexists |].
  pose proof (runAllChecks_consistent RegExp_test Number_toString config node false)
    as [Hp _ _].
  pose proof (shallow_issues_at RegExp_test Number_toString config node) as Hat.
  rewrite Hp.
  destruct (issues (runAllChecks _ _ _ node false)) as [|first others]; [done |].
  split; [done |]. by apply Forall_cons in Hat as [[_ Hid] _].
Qed.

End HandlerProperties.

Lemma marked_node_is_not_checked_on_selection_witness :
  let layer := mkNode "1:1" "layer" OTHER None None None None (StyleId "") None None in
  let text := mkNode "1:1" "T" TEXT None None None (Some (Font "Arial" "Regular"))
                (StyleId "") None None in
  let doc := {| selection := [layer]; currentPage := layer; nodeData := ∅ |} in
  onSelectionChange (fun _ _ => true) (fun _ => "n") defaultConfig
    {| selection := [text];
       currentPage := layer;
       nodeData :=
         nodeData (onCheckReadyForDev (fun _ _ => true) (fun _ => "n") defaultConfig
                     "2026-01-01T00:00:00.000Z" doc).1 |} =
  [NotifyAlreadyReady (Some "2026-01-01T00:00:00.000Z")].
Proof.
  intros layer text doc.
  apply (marked_node_is_not_checked_on_selection
           (fun _ _ => true) (fun _ => "n"%string) defaultConfig
           "2026-01-01T00:00:00.000Z" doc layer [] text defaultConfig);
    by vm_compute.
Defined.


Lemma issues_refer_to_visited_nodes_witness :
  let text := mkNode "1:2" "Title" TEXT None None None (Some (Font "Arial" "Regular"))
                (StyleId "") None None in
  let frame := mkNode "1:1" "Screen - home" FRAME
                 (Some {| x := 0; y := 0; width := 328; height := 640 |})
                 None None None (StyleId "") None (Some [text]) in
  exists visited_node,
    visited_node ∈ visitedNodes true frame /\
    nodeId (fontIssue "Arial" text) = id visited_node /\
    category (fontIssue "Arial" text) ∈ categories.
Proof.
  intros text frame.
  apply (issues_refer_to_visited_nodes (fun _ _ => true) (fun _ => "n"%string)
           defaultConfig frame true (fontIssue "Arial" text)).
  apply list_elem_of_In. vm_compute. tauto.
Defined.
